(** * The remote tool-invocation client (python/terminal-mcp-orchestrator/mcp_client.py)

    A shallow embedding of class [MCPClient]: the session state, the two
    dictionaries that correlate request identifiers with results, the
    background SSE listener and the caller-facing operations [connect],
    [get_tools], [invoke_tool] and [disconnect].

    Modelling choices, fixed once for the whole file:
    - Python values that travel through JSON are values of [json]; JSON
      numbers are integers (floating point numbers are outside the model).
    - An operation is a function from the client object to an outcome (a
      returned value or a raised exception), the mutated client object and
      the list of externally visible actions it performed, in order.
    - Everything the outside world decides is an argument of the operation:
      the text of the uuid, the answer of an HTTP request, and the items the
      SSE stream delivers to the listener thread while the caller is blocked
      (in a wait, a join or an HTTP request).  The listener handles one
      stream item atomically with respect to the caller. *)

From Stdlib Require Import ZArith Ascii String List Bool.
From stdpp Require Import base gmap strings list pretty.

Set Warnings "-register-all".
Local Open Scope string_scope.
Local Open Scope Z_scope.
Local Open Scope list_scope.

(** ** Python values *)

Inductive json : Type :=
| JNull
| JBool (b : bool)
| JInt (n : Z)
| JStr (s : string)
| JList (items : list json)
| JDict (fields : list (string * json)).

Inductive exn : Type :=
| AttributeError
| TypeError
| KeyError
| IndexError
| JSONDecodeError
| TimeoutError (msg : string)
| RequestError (msg : string) (response_text : option string).

Inductive outcome (A : Type) : Type :=
| Ret (a : A)
| Raise (e : exn).
Arguments Ret {A} a.
Arguments Raise {A} e.

(** [bool(v)] *)
Definition py_truthy (v : json) : bool :=
  match v with
  | JNull => false
  | JBool b => b
  | JInt n => negb (n =? 0)
  | JStr s => negb (String.eqb s "")
  | JList l => match l with [] => false | _ => true end
  | JDict kv => match kv with [] => false | _ => true end
  end.

(** A string holds the UTF-8 bytes of a Python [str]; its length in Python
    is the number of code points, that is of bytes that are not continuation
    bytes (10xxxxxx). *)
Definition is_utf8_continuation (a : ascii) : bool :=
  match a with
  | Ascii _ _ _ _ _ _ b6 b7 => b7 && negb b6
  end.

Fixpoint utf8_length (s : string) : nat :=
  match s with
  | EmptyString => 0%nat
  | String a s' =>
      ((if is_utf8_continuation a then 0 else 1) + utf8_length s')%nat
  end.

(** [len(v)]; a [TypeError] for values without a length *)
Definition py_len (v : json) : outcome nat :=
  match v with
  | JStr s => Ret (utf8_length s)
  | JList l => Ret (List.length l)
  | JDict kv => Ret (List.length kv)
  | _ => Raise TypeError
  end.

Fixpoint assoc_get (k : string) (kv : list (string * json)) : option json :=
  match kv with
  | [] => None
  | (k', v) :: rest => if String.eqb k k' then Some v else assoc_get k rest
  end.

(** [v.get(key, default)]: only a dict has the method *)
Definition py_get (v : json) (key : string) (default : json) : outcome json :=
  match v with
  | JDict kv => Ret (match assoc_get key kv with Some x => x | None => default end)
  | _ => Raise AttributeError
  end.

(** [v == s] for a string literal [s] *)
Definition py_eq_str (v : json) (s : string) : bool :=
  match v with
  | JStr s' => String.eqb s' s
  | _ => false
  end.

Fixpoint str_prefix (p s : string) : bool :=
  match p, s with
  | EmptyString, _ => true
  | String a p', String b s' => Ascii.eqb a b && str_prefix p' s'
  | String _ _, EmptyString => false
  end.

Fixpoint str_contains (p s : string) : bool :=
  str_prefix p s ||
  match s with
  | EmptyString => false
  | String _ s' => str_contains p s'
  end.

(** [key in v] for a string literal [key]: key of a dict, element of a
    list, substring of a string; a [TypeError] otherwise *)
Definition py_in (key : string) (v : json) : outcome bool :=
  match v with
  | JDict kv => Ret (bool_decide (is_Some (assoc_get key kv)))
  | JList l => Ret (existsb (fun x => py_eq_str x key) l)
  | JStr s => Ret (str_contains key s)
  | _ => Raise TypeError
  end.

(** [v[key]] for a string literal [key] *)
Definition py_getitem (v : json) (key : string) : outcome json :=
  match v with
  | JDict kv =>
      match assoc_get key kv with
      | Some x => Ret x
      | None => Raise KeyError
      end
  | _ => Raise TypeError
  end.

(** [v[0]] *)
Definition py_getitem0 (v : json) : outcome json :=
  match v with
  | JList (x :: _) => Ret x
  | JList [] => Raise IndexError
  | JStr (String a _) => Ret (JStr (String a EmptyString))
  | JStr EmptyString => Raise IndexError
  | JDict _ => Raise KeyError
  | _ => Raise TypeError
  end.

Definition py_is_list (v : json) : bool :=
  match v with
  | JList _ => true
  | _ => false
  end.

(** ** Dictionary keys

    [tool_results] and [tool_events] are keyed by whatever [data.get] returned
    for the identifier: [None], a boolean, an integer or a string can be a key
    (a boolean is the same key as the integer 0 or 1); a list or a dict is
    unhashable. *)

Inductive dict_key : Type :=
| KNone
| KInt (n : Z)
| KStr (s : string).

#[global] Instance dict_key_eq_dec : EqDecision dict_key.
Proof. solve_decision. Defined.

Definition dict_key_encode (k : dict_key) : option (Z + string) :=
  match k with
  | KNone => None
  | KInt n => Some (inl n)
  | KStr s => Some (inr s)
  end.

Definition dict_key_decode (x : option (Z + string)) : dict_key :=
  match x with
  | None => KNone
  | Some (inl n) => KInt n
  | Some (inr s) => KStr s
  end.

#[global] Instance dict_key_countable : Countable dict_key.
Proof.
  apply (inj_countable' dict_key_encode dict_key_decode).
  intros []; reflexivity.
Defined.

(** [hash(v)]: the key under which [v] is stored, or a [TypeError] *)
Definition py_key (v : json) : outcome dict_key :=
  match v with
  | JNull => Ret KNone
  | JBool b => Ret (KInt (if b then 1 else 0))
  | JInt n => Ret (KInt n)
  | JStr s => Ret (KStr s)
  | JList _ | JDict _ => Raise TypeError
  end.

(** ** Actions visible outside the client object *)

Inductive log_msg : Type :=
| LogConnecting (url : string)
| LogConnected (cid : json)
| LogToolResult (mid : json)
| LogNonJson (data : string)
| LogSseError (e : exn)
| LogServerInfoError (e : exn)
| LogGettingTools (url : string)
| LogRetrieved (n : nat)
| LogToolsError (e : exn)
| LogInvoking (tool_name : string)
| LogParameters (parameters : json)
| LogSendError (e : exn)
| LogResponse (text : string)
| LogWaiting (mid : string)
| LogDisconnected.

Inductive action : Type :=
| APrint (m : log_msg)
| AThreadStart (handle : nat)
| AThreadJoin (handle : nat)
| AHttpGet (url : string)
| AHttpPost (url : string) (payload : json)
| ANewEvent (k : dict_key)
| AWaitConnection (timeout : Z) (signalled : bool)
| AWaitResult (k : dict_key) (timeout : Z) (signalled : bool).

(** ** The client object *)

Record MCPClient : Type := mkClient {
  server_url : string;
  client_id : json;
  sse_thread : option nat;
  running : bool;
  connected : bool;
  headers : list (string * string);
  tools_cache : json;
  tool_results : gmap dict_key json;
  tool_events : gmap dict_key bool;
  connection_event : bool
}.

Definition set_client_id (v : json) (c : MCPClient) : MCPClient :=
  mkClient (server_url c) v (sse_thread c) (running c) (connected c)
    (headers c) (tools_cache c) (tool_results c) (tool_events c) (connection_event c).

Definition set_sse_thread (v : option nat) (c : MCPClient) : MCPClient :=
  mkClient (server_url c) (client_id c) v (running c) (connected c)
    (headers c) (tools_cache c) (tool_results c) (tool_events c) (connection_event c).

Definition set_running (v : bool) (c : MCPClient) : MCPClient :=
  mkClient (server_url c) (client_id c) (sse_thread c) v (connected c)
    (headers c) (tools_cache c) (tool_results c) (tool_events c) (connection_event c).

Definition set_connected (v : bool) (c : MCPClient) : MCPClient :=
  mkClient (server_url c) (client_id c) (sse_thread c) (running c) v
    (headers c) (tools_cache c) (tool_results c) (tool_events c) (connection_event c).

Definition set_tools_cache (v : json) (c : MCPClient) : MCPClient :=
  mkClient (server_url c) (client_id c) (sse_thread c) (running c) (connected c)
    (headers c) v (tool_results c) (tool_events c) (connection_event c).

Definition set_tool_results (v : gmap dict_key json) (c : MCPClient) : MCPClient :=
  mkClient (server_url c) (client_id c) (sse_thread c) (running c) (connected c)
    (headers c) (tools_cache c) v (tool_events c) (connection_event c).

Definition set_tool_events (v : gmap dict_key bool) (c : MCPClient) : MCPClient :=
  mkClient (server_url c) (client_id c) (sse_thread c) (running c) (connected c)
    (headers c) (tools_cache c) (tool_results c) v (connection_event c).

Definition set_connection_event (v : bool) (c : MCPClient) : MCPClient :=
  mkClient (server_url c) (client_id c) (sse_thread c) (running c) (connected c)
    (headers c) (tools_cache c) (tool_results c) (tool_events c) v.

(** [server_url.rstrip('/')] *)
Fixpoint rstrip_slash (s : string) : string :=
  match s with
  | EmptyString => EmptyString
  | String a s' =>
      match rstrip_slash s' with
      | EmptyString => if Ascii.eqb a "/"%char then EmptyString else String a EmptyString
      | t => String a t
      end
  end.

Definition __init__ (url : string) : MCPClient :=
  {| server_url := rstrip_slash url;
     client_id := JNull;
     sse_thread := None;
     running := false;
     connected := false;
     headers := [("Content-Type", "application/json")];
     tools_cache := JNull;
     tool_results := ∅;
     tool_events := ∅;
     connection_event := false |}.

(** ** Operations: state, exceptions and a trace of actions *)

Definition M (A : Type) : Type := MCPClient -> outcome A * MCPClient * list action.

Definition ret {A} (a : A) : M A := fun c => (Ret a, c, []).

Definition raise {A} (e : exn) : M A := fun c => (Raise e, c, []).

Definition bind {A B} (m : M A) (f : A -> M B) : M B :=
  fun c =>
    match m c with
    | (Ret a, c1, t1) =>
        match f a c1 with
        | (r, c2, t2) => (r, c2, t1 ++ t2)
        end
    | (Raise e, c1, t1) => (Raise e, c1, t1)
    end.

(** [try: body  except Exception as e: handler e]; [catches] selects the
    exception classes of the [except] clause *)
Definition try_except {A} (catches : exn -> bool) (body : M A) (handler : exn -> M A) : M A :=
  fun c =>
    match body c with
    | (Raise e, c1, t1) =>
        if catches e then
          match handler e c1 with
          | (r, c2, t2) => (r, c2, t1 ++ t2)
          end
        else (Raise e, c1, t1)
    | res => res
    end.

Definition lift {A} (o : outcome A) : M A := fun c => (o, c, []).
Definition gets {A} (f : MCPClient -> A) : M A := fun c => (Ret (f c), c, []).
Definition modify (f : MCPClient -> MCPClient) : M unit := fun c => (Ret tt, f c, []).
Definition emit (a : action) : M unit := fun c => (Ret tt, c, [a]).
Definition print (m : log_msg) : M unit := emit (APrint m).

Declare Scope py_scope.
Delimit Scope py_scope with py.
Notation "x <- m ;; k" := (bind m (fun x => k))
  (at level 100, m at next level, right associativity) : py_scope.
Notation "m ;; k" := (bind m (fun _ => k))
  (at level 100, right associativity) : py_scope.
Local Open Scope py_scope.

Definition any_exception (e : exn) : bool := true.

Definition is_json_decode_error (e : exn) : bool :=
  match e with
  | JSONDecodeError => true
  | _ => false
  end.

(** [str(e)].  [TimeoutError] and [RequestError] carry their message.  The
    exceptions raised by the interpreter itself carry none in this model:
    for them the text below only stands for the interpreter's message, whose
    wording depends on the operand and on the Python version.  Every
    statement below that spells out the text of an error does so for an
    exception that carries its message; for the others the text is left
    open. *)
Definition exn_str (e : exn) : string :=
  match e with
  | AttributeError => "AttributeError"
  | TypeError => "TypeError"
  | KeyError => "KeyError"
  | IndexError => "IndexError"
  | JSONDecodeError => "JSONDecodeError"
  | TimeoutError msg => msg
  | RequestError msg _ => msg
  end.

(** ** What the outside world supplies *)

(** One item of the SSE stream as the listener's [for event in
    client.events()] sees it: an event with its data text, an exception
    raised by the transport ([requests.get], [raise_for_status] or the event
    iterator), or the end of the stream. *)
Inductive sse_item : Type :=
| SseEvent (data : string)
| SseRaise (e : exn)
| SseEnd.

(** Where the listener thread stands after consuming the items delivered so
    far: blocked on the next event, or returned from [_sse_listener]. *)
Inductive listener_status : Type :=
| Listening
| Stopped.

(** The answer to an HTTP request: the decoded JSON body, or the exception
    raised by [requests.get]/[requests.post], [raise_for_status] or
    [response.json]. *)
Inductive http_result : Type :=
| HttpJson (body : json)
| HttpRaise (e : exn).

Section Client.

(** [json.loads] on a text: the decoded value, or [None] for a
    [JSONDecodeError]. *)
Variable json_loads : string -> option json.

Definition py_json_loads (text : string) : M json :=
  match json_loads text with
  | Some v => ret v
  | None => raise JSONDecodeError
  end.

(** *** The listener thread, [_sse_listener] *)

(** lines 91-94 *)
Definition on_connected (data : json) : M unit :=
  cid <- lift (py_get data "clientId" JNull) ;;
  modify (set_client_id cid) ;;
  modify (set_connected true) ;;
  print (LogConnected cid) ;;
  modify (set_connection_event true).

(** lines 98-105 *)
Definition on_tool_result (data : json) : M unit :=
  message_id <- lift (py_get data "id" JNull) ;;
  print (LogToolResult message_id) ;;
  k <- lift (py_key message_id) ;;
  modify (fun c => set_tool_results (<[k := data]> (tool_results c)) c) ;;
  present <- gets (fun c => bool_decide (is_Some (tool_events c !! k))) ;;
  if present : bool
  then modify (fun c => set_tool_events (<[k := true]> (tool_events c)) c)
  else ret tt.

(** lines 86-108: the body of [if event.data:] *)
Definition handle_event (text : string) : M unit :=
  try_except is_json_decode_error
    (data <- py_json_loads text ;;
     ty <- lift (py_get data "type" JNull) ;;
     if py_eq_str ty "connected" then on_connected data
     else
       ty' <- lift (py_get data "type" JNull) ;;
       if py_eq_str ty' "tool_result" then on_tool_result data
       else ret tt)
    (fun _ => print (LogNonJson text)).

(** lines 81-108: the [for] loop over the items delivered so far *)
Fixpoint sse_loop (items : list sse_item) : M listener_status :=
  match items with
  | [] => ret Listening
  | SseEnd :: _ => ret Stopped
  | SseRaise e :: _ => raise e
  | SseEvent text :: rest =>
      r <- gets running ;;
      if negb r then ret Stopped
      else
        (if negb (String.eqb text "") then handle_event text else ret tt) ;;
        sse_loop rest
  end.

(** lines 110-113 *)
Definition sse_except (e : exn) : M listener_status :=
  print (LogSseError e) ;;
  modify (set_running false) ;;
  modify (set_connection_event true) ;;
  ret Stopped.

(** The listener from its start, over the first items of the stream. *)
Definition _sse_listener (items : list sse_item) : M listener_status :=
  try_except any_exception
    (url <- gets server_url ;;
     print (LogConnecting (url +:+ "/sse")) ;;
     emit (AHttpGet (url +:+ "/sse")) ;;
     sse_loop items)
    sse_except.

(** The listener going on with its loop over further items, while a caller
    is blocked. *)
Definition sse_resume (items : list sse_item) : M listener_status :=
  try_except any_exception (sse_loop items) sse_except.

(** *** [connect] *)

Definition new_thread (c : MCPClient) : nat :=
  match sse_thread c with
  | None => 0%nat
  | Some h => S h
  end.

Definition connect (timeout : Z) (stream : list sse_item) : M json :=
  already <- gets connected ;;
  if already : bool then gets client_id
  else
    modify (set_running true) ;;
    h <- gets new_thread ;;
    modify (set_sse_thread (Some h)) ;;
    emit (AThreadStart h) ;;
    _sse_listener stream ;;
    signalled <- gets connection_event ;;
    emit (AWaitConnection timeout signalled) ;;
    if negb signalled
    then raise (TimeoutError "Failed to establish SSE connection within timeout period")
    else gets client_id.

(** *** [get_server_info] and [get_tools] *)

Definition http_get (path : string) (resp : http_result) : M json :=
  url <- gets server_url ;;
  emit (AHttpGet (url +:+ path)) ;;
  match resp with
  | HttpJson body => ret body
  | HttpRaise e => raise e
  end.

Definition get_server_info (resp : http_result) : M json :=
  try_except any_exception
    (http_get "/info" resp)
    (fun e => print (LogServerInfoError e) ;; ret (JDict [])).

Definition get_tools (resp : http_result) : M json :=
  cache <- gets tools_cache ;;
  if py_truthy cache then ret cache
  else
    try_except any_exception
      (url <- gets server_url ;;
       print (LogGettingTools (url +:+ "/tools")) ;;
       data <- http_get "/tools" resp ;;
       tools <- lift (py_get data "tools" (JList [])) ;;
       n <- lift (py_len tools) ;;
       print (LogRetrieved n) ;;
       modify (set_tools_cache tools) ;;
       ret tools)
      (fun e => print (LogToolsError e) ;; ret (JList [])).

(** *** [_send_tool_invocation] *)

Definition not_connected_error : json :=
  JDict [("error", JStr "Not connected. Call connect() first")].

Definition invocation_payload (message_id tool_name : string) (parameters cid : json) : json :=
  JDict [("id", JStr message_id);
         ("type", JStr "invoke_tool");
         ("content", JDict [("name", JStr tool_name); ("parameters", parameters)]);
         ("clientId", cid)].

Definition _send_tool_invocation (message_id tool_name : string) (parameters : json)
    (ack : http_result) (during_post : list sse_item) : M json :=
  cid <- gets client_id ;;
  if negb (py_truthy cid) then ret not_connected_error
  else
    print (LogInvoking tool_name) ;;
    print (LogParameters parameters) ;;
    try_except any_exception
      (url <- gets server_url ;;
       emit (AHttpPost (url +:+ "/messages")
               (invocation_payload message_id tool_name parameters cid)) ;;
       sse_resume during_post ;;
       match ack with
       | HttpJson body => ret body
       | HttpRaise e => raise e
       end)
      (fun e =>
         print (LogSendError e) ;;
         match e with
         | RequestError _ (Some text) => print (LogResponse text)
         | _ => ret tt
         end ;;
         ret (JDict [("error", JStr (exn_str e))])).

(** *** [invoke_tool] *)

Definition timeout_error (timeout : Z) : json :=
  JDict [("error",
          JStr ("Timeout waiting for tool result after " +:+ pretty timeout +:+ " seconds"))].

(** [del self.tool_events[k]] *)
Definition del_tool_event (k : dict_key) : M unit :=
  ev <- gets (fun c => tool_events c !! k) ;;
  match ev with
  | Some _ => modify (fun c => set_tool_events (delete k (tool_events c)) c)
  | None => raise KeyError
  end.

(** lines 178-189 *)
Definition extract_content (tool_result : json) : M json :=
  nested <-
    (if py_truthy tool_result then
       b <- lift (py_in "content" tool_result) ;;
       if b : bool then
         inner <- lift (py_getitem tool_result "content") ;;
         lift (py_in "content" inner)
       else ret false
     else ret false) ;;
  found <-
    (if nested : bool then
       inner <- lift (py_getitem tool_result "content") ;;
       content_items <- lift (py_getitem inner "content") ;;
       has_text <-
         (if py_truthy content_items && py_is_list content_items then
            first <- lift (py_getitem0 content_items) ;;
            lift (py_in "text" first)
          else ret false) ;;
       if has_text : bool then
         first <- lift (py_getitem0 content_items) ;;
         result_text <- lift (py_getitem first "text") ;;
         match result_text with
         | JStr text =>
             match json_loads text with
             | Some result_data => ret (Some result_data)
             | None => ret (Some (JDict [("text", result_text)]))
             end
         | _ => raise TypeError
         end
       else ret None
     else ret None) ;;
  match found with
  | Some v => ret v
  | None =>
      ret (if py_truthy tool_result then tool_result
           else JDict [("error", JStr "No result received")])
  end.

(** [self.tool_events[k] = threading.Event()] *)
Definition new_tool_event (k : dict_key) : M unit :=
  modify (fun c => set_tool_events (<[k := false]> (tool_events c)) c) ;;
  emit (ANewEvent k).

(** [invoke_tool] when the listener handles events only while the call is
    blocked, in the post and in the wait.  [invoke_tool_interleaved] below
    is the same function with the listener free to run between any two
    statements; this one is its schedule [blocked_only]. *)
Definition invoke_tool (tool_name : string) (parameters : json) (timeout : Z)
    (uuid : string) (ack : http_result) (during_post during_wait : list sse_item) : M json :=
  let message_id := "msg-" +:+ uuid in
  let k := KStr message_id in
  new_tool_event k ;;
  result <- _send_tool_invocation message_id tool_name parameters ack during_post ;;
  has_error <- lift (py_in "error" result) ;;
  if has_error : bool then ret result
  else
    print (LogWaiting message_id) ;;
    ev <- gets (fun c => tool_events c !! k) ;;
    match ev with
    | None => raise KeyError
    | Some _ =>
        sse_resume during_wait ;;
        signalled <- gets (fun c => default false (tool_events c !! k)) ;;
        emit (AWaitResult k timeout signalled) ;;
        if negb signalled then
          del_tool_event k ;;
          ret (timeout_error timeout)
        else
          tool_result <- gets (fun c => default JNull (tool_results c !! k)) ;;
          del_tool_event k ;;
          in_results <- gets (fun c => bool_decide (is_Some (tool_results c !! k))) ;;
          (if in_results : bool
           then modify (fun c => set_tool_results (delete k (tool_results c)) c)
           else ret tt) ;;
          extract_content tool_result
    end.

(** *** [invoke_tool], statement by statement

    [invoke_tool] above lets the listener run only while the call is
    blocked.  Nothing in the source synchronises the two threads, so the
    listener can also handle events between any two statements of the call
    that touch the dictionaries.  An [interleaving] gives, for each such gap,
    the stream items the listener handles there.  Statements of the call
    that read or write neither dictionary (the test of line 160, the print
    of line 164, the extraction of lines 178-189) are not separated from
    their neighbours: the listener steps commute with them.  The listener
    handles one event per step: the store of line 101 and the signal of
    lines 104-105 of one event are not separated. *)

Record interleaving : Type := {
  gap_registered : list sse_item;   (* after line 157, before the send *)
  gap_post : list sse_item;         (* while the post is in flight *)
  gap_wait : list sse_item;         (* while line 165 waits *)
  gap_woken : list sse_item;        (* after the wait returned *)
  gap_read : list sse_item;         (* after line 170 *)
  gap_deregistered : list sse_item; (* after the del of line 166 or 173 *)
  gap_tested : list sse_item;       (* after the test of line 174 *)
  gap_cleaned : list sse_item       (* after line 175, until the return *)
}.

(** [del self.tool_results[k]] *)
Definition del_tool_result (k : dict_key) : M unit :=
  res <- gets (fun c => tool_results c !! k) ;;
  match res with
  | Some _ => modify (fun c => set_tool_results (delete k (tool_results c)) c)
  | None => raise KeyError
  end.

(** lines 166-167 *)
Definition timeout_exit (k : dict_key) (timeout : Z) (g : interleaving) : M json :=
  del_tool_event k ;;
  sse_resume (gap_deregistered g) ;;
  ret (timeout_error timeout).

(** lines 170-189 *)
Definition result_exit (k : dict_key) (g : interleaving) : M json :=
  tool_result <- gets (fun c => default JNull (tool_results c !! k)) ;;
  sse_resume (gap_read g) ;;
  del_tool_event k ;;
  sse_resume (gap_deregistered g) ;;
  in_results <- gets (fun c => bool_decide (is_Some (tool_results c !! k))) ;;
  sse_resume (gap_tested g) ;;
  (if in_results : bool then del_tool_result k else ret tt) ;;
  sse_resume (gap_cleaned g) ;;
  extract_content tool_result.

(** lines 160-189: what the call does with the acknowledgment *)
Definition await_result (message_id : string) (timeout : Z) (g : interleaving)
    (result : json) : M json :=
  let k := KStr message_id in
  has_error <- lift (py_in "error" result) ;;
  if has_error : bool then ret result
  else
    print (LogWaiting message_id) ;;
    ev <- gets (fun c => tool_events c !! k) ;;
    match ev with
    | None => raise KeyError
    | Some _ =>
        sse_resume (gap_wait g) ;;
        signalled <- gets (fun c => default false (tool_events c !! k)) ;;
        emit (AWaitResult k timeout signalled) ;;
        sse_resume (gap_woken g) ;;
        if negb signalled then timeout_exit k timeout g
        else result_exit k g
    end.

Definition invoke_tool_interleaved (tool_name : string) (parameters : json)
    (timeout : Z) (uuid : string) (ack : http_result) (g : interleaving) : M json :=
  let message_id := "msg-" +:+ uuid in
  let k := KStr message_id in
  new_tool_event k ;;
  sse_resume (gap_registered g) ;;
  result <- _send_tool_invocation message_id tool_name parameters ack (gap_post g) ;;
  await_result message_id timeout g result.

(** *** [disconnect] *)

Definition disconnect (during_join : list sse_item) : M unit :=
  modify (set_running false) ;;
  th <- gets sse_thread ;;
  match th with
  | Some h => emit (AThreadJoin h) ;; sse_resume during_join ;; ret tt
  | None => ret tt
  end ;;
  modify (set_connected false) ;;
  modify (set_client_id JNull) ;;
  modify (set_tools_cache JNull) ;;
  print LogDisconnected.

End Client.

(** ** The callers: [main] of mcp_client.py, and orchestrator.py

    The scripts print and log besides driving the client; their trace
    interleaves the client's actions with their own output lines. *)

Inductive script_line : Type :=
| LineInvalidParameters (text : string)
| LineServer (name version : json)
| LineResultHeader
| LineResultJson (result : json)
| LineError (e : exn)
| LogInfoConnecting (url : string)
| LogInfoExecuting (tool_name : string)
| LogErrorExecuting (tool_name : string) (e : exn)
| LogErrorGettingTools (e : exn)
| LineTestingConnection
| LineConnectedSuccessfully (cid : json)
| LineServerName (name : json)
| LineServerVersion (version : json)
| LineConnectionFailed (e : exn).

Inductive script_event : Type :=
| ClientAction (a : action)
| Output (line : script_line).

Definition S (A : Type) : Type :=
  MCPClient -> outcome A * MCPClient * list script_event.

Definition of_client {A} (m : M A) : S A :=
  fun c =>
    match m c with
    | (r, c', t) => (r, c', map ClientAction t)
    end.

Definition sret {A} (a : A) : S A := fun c => (Ret a, c, []).

Definition slift {A} (o : outcome A) : S A := fun c => (o, c, []).

Definition sout (line : script_line) : S unit := fun c => (Ret tt, c, [Output line]).

Definition sbind {A B} (m : S A) (f : A -> S B) : S B :=
  fun c =>
    match m c with
    | (Ret a, c1, t1) =>
        match f a c1 with
        | (r, c2, t2) => (r, c2, t1 ++ t2)
        end
    | (Raise e, c1, t1) => (Raise e, c1, t1)
    end.

(** [try: body  except Exception as e: handler e] *)
Definition stry {A} (body : S A) (handler : exn -> S A) : S A :=
  fun c =>
    match body c with
    | (Raise e, c1, t1) =>
        match handler e c1 with
        | (r, c2, t2) => (r, c2, t1 ++ t2)
        end
    | res => res
    end.

Declare Scope script_scope.
Delimit Scope script_scope with script.
Notation "x <- m ;; k" := (sbind m (fun x => k))
  (at level 100, m at next level, right associativity) : script_scope.
Notation "m ;; k" := (sbind m (fun _ => k))
  (at level 100, right associativity) : script_scope.

Section Callers.

Variable json_loads : string -> option json.

Local Open Scope script_scope.

(** *** mcp_client.py, [main], lines 251-264: the body of the [try] *)
Definition main_try (tool_name : string) (parameters : json)
    (stream : list sse_item) (info : http_result) (uuid : string)
    (ack : http_result) (during_post during_wait : list sse_item) : S unit :=
  of_client (connect json_loads 10 stream) ;;
  server_info <- of_client (get_server_info info) ;;
  name <- slift (py_get server_info "name" (JStr "Unknown")) ;;
  version <- slift (py_get server_info "version" (JStr "Unknown")) ;;
  sout (LineServer name version) ;;
  result <- of_client (invoke_tool json_loads tool_name parameters 30 uuid ack
                         during_post during_wait) ;;
  sout LineResultHeader ;;
  sout (LineResultJson result).

(** [main] after argument parsing: the exit status of the process, the
    client object it leaves behind (if it created one) and its trace.
    [sys.exit(1)] in the [except] clause still runs the [finally] clause. *)
Definition main (server_url tool_name parameters_text : string)
    (stream : list sse_item) (info : http_result) (uuid : string)
    (ack : http_result) (during_post during_wait during_join : list sse_item)
    : Z * option MCPClient * list script_event :=
  match json_loads parameters_text with
  | None => (1, None, [Output (LineInvalidParameters parameters_text)])
  | Some parameters =>
      match
        stry (main_try tool_name parameters stream info uuid ack
                during_post during_wait ;; sret 0)
             (fun e => sout (LineError e) ;; sret 1)
             (__init__ server_url)
      with
      | (r, c1, t1) =>
          match of_client (disconnect json_loads during_join) c1 with
          | (Ret _, c2, t2) =>
              (match r with Ret status => status | Raise _ => 1 end,
               Some c2, t1 ++ t2)
          | (Raise _, c2, t2) => (1, Some c2, t1 ++ t2)
          end
      end
  end.

(** *** orchestrator.py, [execute_remote_tool] *)

Definition remote_tool_error (tool_name : string) (e : exn) : json :=
  JDict [("error",
          JStr ("Error executing remote tool " +:+ tool_name +:+ ": " +:+ exn_str e))].

Definition execute_remote_tool (server_url tool_name : string) (parameters : json)
    (stream : list sse_item) (uuid : string) (ack : http_result)
    (during_post during_wait during_join : list sse_item)
    : outcome json * MCPClient * list script_event :=
  stry
    (sout (LogInfoConnecting server_url) ;;
     of_client (connect json_loads 10 stream) ;;
     sout (LogInfoExecuting tool_name) ;;
     result <- of_client (invoke_tool json_loads tool_name parameters 30 uuid ack
                            during_post during_wait) ;;
     of_client (disconnect json_loads during_join) ;;
     sret result)
    (fun e =>
       sout (LogErrorExecuting tool_name e) ;;
       sret (remote_tool_error tool_name e))
    (__init__ server_url).

(** *** orchestrator.py, [list_available_tools] *)

Definition list_available_tools (server_url : string)
    (stream : list sse_item) (resp : http_result) (during_join : list sse_item)
    : outcome json * MCPClient * list script_event :=
  stry
    (of_client (connect json_loads 10 stream) ;;
     tools <- of_client (get_tools resp) ;;
     of_client (disconnect json_loads during_join) ;;
     sret tools)
    (fun e =>
       sout (LogErrorGettingTools e) ;;
       sret (JList []))
    (__init__ server_url).

(** *** test_mcp_server.py, [test_connection], lines 19-38: what the
    function returns, the client it leaves behind and its trace *)

Definition test_connection (server_url : string) (stream : list sse_item)
    (info : http_result) (during_join : list sse_item)
    : bool * MCPClient * list script_event :=
  match
    stry
      (cid <- of_client (connect json_loads 10 stream) ;;
       sout (LineConnectedSuccessfully cid) ;;
       server_info <- of_client (get_server_info info) ;;
       name <- slift (py_get server_info "name" (JStr "Unknown")) ;;
       sout (LineServerName name) ;;
       version <- slift (py_get server_info "version" (JStr "Unknown")) ;;
       sout (LineServerVersion version) ;;
       sret true)
      (fun e => sout (LineConnectionFailed e) ;; sret false)
      (__init__ server_url)
  with
  | (r, c1, t1) =>
      match of_client (disconnect json_loads during_join) c1 with
      | (_, c2, t2) =>
          (match r with Ret b => b | Raise _ => false end, c2,
           Output LineTestingConnection :: t1 ++ t2)
      end
  end.

Local Close Scope script_scope.

End Callers.

(** * Vocabulary of the statements *)

Definition is_print (a : action) : Prop :=
  match a with
  | APrint _ => True
  | _ => False
  end.

Definition is_wait_result (a : action) : Prop :=
  match a with
  | AWaitResult _ _ _ => True
  | _ => False
  end.

Definition is_new_event (a : action) : Prop :=
  match a with
  | ANewEvent _ => True
  | _ => False
  end.

Definition is_http_post (a : action) : Prop :=
  match a with
  | AHttpPost _ _ => True
  | _ => False
  end.

Definition is_thread_start (a : action) : Prop :=
  match a with
  | AThreadStart _ => True
  | _ => False
  end.

(** What one or more listener steps may do to the client object: the
    configuration fields stay, [tool_events] keeps its keys, a set signal
    stays set, and no result is stored under a key whose signal is still
    unset afterwards. *)
Record listener_frame (c c' : MCPClient) : Prop := {
  lf_url : server_url c' = server_url c;
  lf_thread : sse_thread c' = sse_thread c;
  lf_headers : headers c' = headers c;
  lf_cache : tools_cache c' = tools_cache c;
  lf_dom : ∀ k, is_Some (tool_events c' !! k) ↔ is_Some (tool_events c !! k);
  lf_mono : ∀ k, tool_events c !! k = Some true → tool_events c' !! k = Some true;
  lf_unsignalled : ∀ k, tool_events c' !! k = Some false →
                        tool_results c' !! k = tool_results c !! k
}.

(** A computation is [quiet] when it only prints and respects
    [listener_frame]: everything the listener thread runs is. *)
Definition quiet {A} (m : M A) : Prop :=
  ∀ c, ∃ r c' tr, m c = (r, c', tr) ∧ listener_frame c c' ∧ Forall is_print tr.

(** ** Concrete inputs used in the examples below *)

Definition quoted (s : string) : string :=
  String (ascii_of_nat 34) s +:+ String (ascii_of_nat 34) EmptyString.

(** The text of a JSON object whose values are all strings. *)
Fixpoint flat_fields (fields : list (string * string)) : string :=
  match fields with
  | [] => EmptyString
  | [(k, v)] => quoted k +:+ ": " +:+ quoted v
  | (k, v) :: rest => quoted k +:+ ": " +:+ quoted v +:+ ", " +:+ flat_fields rest
  end.

Definition flat_object (fields : list (string * string)) : string :=
  "{" +:+ flat_fields fields +:+ "}".

Definition flat_value (fields : list (string * string)) : json :=
  JDict (map (fun kv => (fst kv, JStr (snd kv))) fields).

Definition sample_connected : list (string * string) :=
  [("type", "connected"); ("clientId", "abc123")].

Definition sample_late_result : list (string * string) :=
  [("type", "tool_result"); ("id", "msg-late")].

(** A decoder that knows the two sample objects; every other text is not
    JSON to it. *)
Definition sample_loads (text : string) : option json :=
  if String.eqb text (flat_object sample_connected)
  then Some (flat_value sample_connected)
  else if String.eqb text (flat_object sample_late_result)
  then Some (flat_value sample_late_result)
  else None.

Definition sample_client : MCPClient := __init__ "http://localhost:8080/".

(** The sample client after a handshake: what [connect] leaves behind when
    the stream opens with the sample [connected] event. *)
Definition sample_session : MCPClient :=
  snd (fst (connect sample_loads 10 [SseEvent (flat_object sample_connected)]
              sample_client)).

Definition connection_refused : exn :=
  RequestError "Connection refused" None.

(** The interleaving in which the listener runs only while the call is
    blocked in the post or in the wait. *)
Definition blocked_only (during_post during_wait : list sse_item) : interleaving :=
  {| gap_registered := []; gap_post := during_post; gap_wait := during_wait;
     gap_woken := []; gap_read := []; gap_deregistered := [];
     gap_tested := []; gap_cleaned := [] |}.

(** The stream item is a [tool_result] event that the listener would store
    under the key [k]. *)
Definition result_event_for (json_loads : string -> option json) (k : dict_key)
    (item : sse_item) : Prop :=
  match item with
  | SseEvent text =>
      match json_loads text with
      | Some (JDict fields) =>
          assoc_get "type" fields = Some (JStr "tool_result") ∧
          py_key (default JNull (assoc_get "id" fields)) = Ret k
      | _ => False
      end
  | _ => False
  end.

Definition is_http_get_to (url : string) (a : action) : Prop :=
  match a with
  | AHttpGet url' => url' = url
  | _ => False
  end.

(** The script performed no client action of the given kind. *)
Definition no_client_action (P : action → Prop) (t : list script_event) : Prop :=
  Forall (λ ev, match ev with ClientAction a => ¬ P a | Output _ => True end) t.

(** The session state is cleared, as [disconnect] leaves it. *)
Definition session_cleared (c : MCPClient) : Prop :=
  client_id c = JNull ∧ connected c = false ∧ tools_cache c = JNull ∧
  running c = false.

(** A [tool_result] event for the identifier of the sample call, carrying a
    text item in the nested content, and its data text. *)
Definition sample_result : json :=
  JDict [("type", JStr "tool_result");
         ("id", JStr "msg-0001");
         ("content",
          JDict [("content",
                  JList [JDict [("type", JStr "text"); ("text", JStr "listing")]])])].

Definition sample_result_text : string :=
  "{" +:+ quoted "type" +:+ ": " +:+ quoted "tool_result" +:+ ", " +:+
  quoted "id" +:+ ": " +:+ quoted "msg-0001" +:+ ", " +:+
  quoted "content" +:+ ": {" +:+ quoted "content" +:+ ": [{" +:+
  quoted "type" +:+ ": " +:+ quoted "text" +:+ ", " +:+
  quoted "text" +:+ ": " +:+ quoted "listing" +:+ "}]}}".

(** The same result without a content field, an error event, a result
    whose identifier is a list, and a value that is JSON but no object. *)
Definition sample_plain_result : list (string * string) :=
  [("type", "tool_result"); ("id", "msg-0001"); ("status", "done")].

Definition sample_error_event : list (string * string) :=
  [("type", "error"); ("id", "msg-0001")].

Definition sample_list_id_result : json :=
  JDict [("type", JStr "tool_result"); ("id", JList [JInt 1])].

Definition sample_list_id_text : string :=
  "{" +:+ quoted "type" +:+ ": " +:+ quoted "tool_result" +:+ ", " +:+
  quoted "id" +:+ ": [1]}".

Definition sample_table : list (string * json) :=
  [(sample_result_text, sample_result);
   (flat_object sample_plain_result, flat_value sample_plain_result);
   (flat_object sample_error_event, flat_value sample_error_event);
   (sample_list_id_text, sample_list_id_result);
   ("[1, 2]", JList [JInt 1; JInt 2]);
   ("{}", JDict [])].

(** A decoder for the sample stream: it knows the texts of [sample_table]
    and the two flat sample objects of [sample_loads]. *)
Definition sample_loads' (text : string) : option json :=
  match assoc_get text sample_table with
  | Some v => Some v
  | None => sample_loads text
  end.

Definition sample_tools : list json :=
  [JDict [("name", JStr "readFile")]; JDict [("name", JStr "createFile")]].



Definition result_while_waiting : interleaving :=
  let other := [SseEvent (flat_object sample_late_result)] in
  {| gap_registered := []; gap_post := [];
     gap_wait := [SseEvent sample_result_text];
     gap_woken := other; gap_read := other; gap_deregistered := other;
     gap_tested := other; gap_cleaned := other |}.

(** * Properties *)

Create HintDb quiet.

Lemma listener_frame_refl c : listener_frame c c.
Proof. split; auto. Qed.

Lemma listener_frame_trans c1 c2 c3 :
  listener_frame c1 c2 → listener_frame c2 c3 → listener_frame c1 c3.
Proof.
  intros H12 H23. split.
  - rewrite (lf_url _ _ H23). apply H12.
  - rewrite (lf_thread _ _ H23). apply H12.
  - rewrite (lf_headers _ _ H23). apply H12.
  - rewrite (lf_cache _ _ H23). apply H12.
  - intros k. rewrite (lf_dom _ _ H23 k). apply H12.
  - intros k Hk. apply (lf_mono _ _ H23), (lf_mono _ _ H12), Hk.
  - intros k Hk.
    rewrite (lf_unsignalled _ _ H23 k Hk).
    apply (lf_unsignalled _ _ H12).
    assert (Hsome : is_Some (tool_events c2 !! k)).
    { apply (lf_dom _ _ H23). rewrite Hk. eauto. }
    destruct Hsome as [[] Hb]; [|exact Hb].
    apply (lf_mono _ _ H23) in Hb. congruence.
Qed.

Ltac run_py :=
  unfold bind, ret, raise, lift, gets, modify, emit, print, try_except,
    any_exception; simpl.

(** The equations of [bind] on the primitive computations. *)

Lemma bind_ret {A B} (a : A) (k : A → M B) (c : MCPClient) :
  bind (ret a) k c = k a c.
Proof. unfold bind, ret. destruct (k a c) as [[r c'] t]. reflexivity. Qed.

Lemma bind_gets {A B} (g : MCPClient → A) (k : A → M B) (c : MCPClient) :
  bind (gets g) k c = k (g c) c.
Proof. unfold bind, gets. destruct (k (g c) c) as [[r c'] t]. reflexivity. Qed.

Lemma bind_modify {B} (f : MCPClient → MCPClient) (k : unit → M B) (c : MCPClient) :
  bind (modify f) k c = k tt (f c).
Proof. unfold bind, modify. destruct (k tt (f c)) as [[r c'] t]. reflexivity. Qed.

Lemma bind_lift_ret {A B} (a : A) (k : A → M B) (c : MCPClient) :
  bind (lift (Ret a)) k c = k a c.
Proof. unfold bind, lift. destruct (k a c) as [[r c'] t]. reflexivity. Qed.

Lemma bind_lift_raise {A B} (e : exn) (k : A → M B) (c : MCPClient) :
  bind (lift (Raise e)) k c = (Raise e, c, []).
Proof. reflexivity. Qed.

Lemma bind_emit {B} (a : action) (k : unit → M B) (c : MCPClient) :
  bind (emit a) k c = (let '(r, c', t) := k tt c in (r, c', a :: t)).
Proof. reflexivity. Qed.

Lemma bind_print {B} (m : log_msg) (k : unit → M B) (c : MCPClient) :
  bind (print m) k c = (let '(r, c', t) := k tt c in (r, c', APrint m :: t)).
Proof. reflexivity. Qed.

Lemma bind_assoc {A B C} (m : M A) (f : A → M B) (g : B → M C) (c : MCPClient) :
  bind (bind m f) g c = bind m (λ a, bind (f a) g) c.
Proof.
  unfold bind. destruct (m c) as [[[a|e] c1] t1]; [|reflexivity].
  destruct (f a c1) as [[[b|e] c2] t2]; [|reflexivity].
  destruct (g b c2) as [[r c3] t3]. rewrite app_assoc. reflexivity.
Qed.

Ltac step_py :=
  repeat first
    [ rewrite bind_assoc | rewrite bind_ret | rewrite bind_gets
    | rewrite bind_modify | rewrite bind_lift_ret | rewrite bind_lift_raise
    | rewrite bind_emit | rewrite bind_print ].

Lemma quiet_ret {A} (a : A) : quiet (ret a).
Proof.
  intros c. exists (Ret a), c, []. auto using listener_frame_refl.
Qed.

Lemma quiet_raise {A} (e : exn) : quiet (@raise A e).
Proof.
  intros c. exists (Raise e), c, []. auto using listener_frame_refl.
Qed.

Lemma quiet_lift {A} (o : outcome A) : quiet (lift o).
Proof.
  intros c. exists o, c, []. auto using listener_frame_refl.
Qed.

Lemma quiet_gets {A} (f : MCPClient → A) : quiet (gets f).
Proof.
  intros c. exists (Ret (f c)), c, []. auto using listener_frame_refl.
Qed.

Lemma quiet_print (m : log_msg) : quiet (print m).
Proof.
  intros c. exists (Ret tt), c, [APrint m].
  split; [reflexivity|]. split; [apply listener_frame_refl|].
  repeat constructor.
Qed.

Lemma quiet_modify (f : MCPClient → MCPClient) :
  (∀ c, listener_frame c (f c)) → quiet (modify f).
Proof.
  intros Hf c. exists (Ret tt), (f c), []. auto.
Qed.

Lemma quiet_bind {A B} (m : M A) (f : A → M B) :
  quiet m → (∀ a, quiet (f a)) → quiet (bind m f).
Proof.
  intros Hm Hf c. unfold bind.
  destruct (Hm c) as (r & c1 & t1 & -> & Hfr1 & Ht1).
  destruct r as [a|e].
  - destruct (Hf a c1) as (r2 & c2 & t2 & -> & Hfr2 & Ht2).
    exists r2, c2, (t1 ++ t2). split; [reflexivity|]. split.
    + eapply listener_frame_trans; eauto.
    + apply Forall_app; auto.
  - exists (Raise e), c1, t1. auto.
Qed.

Lemma quiet_try_except {A} (catches : exn → bool) (m : M A) (h : exn → M A) :
  quiet m → (∀ e, quiet (h e)) → quiet (try_except catches m h).
Proof.
  intros Hm Hh c. unfold try_except.
  destruct (Hm c) as (r & c1 & t1 & -> & Hfr1 & Ht1).
  destruct r as [a|e]; [eauto 6|].
  destruct (catches e); [|eauto 6].
  destruct (Hh e c1) as (r2 & c2 & t2 & -> & Hfr2 & Ht2).
  exists r2, c2, (t1 ++ t2). split; [reflexivity|]. split.
  - eapply listener_frame_trans; eauto.
  - apply Forall_app; auto.
Qed.

Lemma quiet_if {A} (b : bool) (m1 m2 : M A) :
  quiet m1 → quiet m2 → quiet (if b then m1 else m2).
Proof. destruct b; auto. Qed.

#[local] Hint Resolve quiet_ret quiet_raise quiet_lift quiet_gets quiet_print
  quiet_bind quiet_try_except quiet_if : quiet.

Section ListenerFacts.

Variable json_loads : string -> option json.

Lemma on_connected_quiet data : quiet (on_connected data).
Proof.
  unfold on_connected.
  repeat (first [apply quiet_bind; [|intros ?] | apply quiet_modify
                | solve [auto with quiet]]);
    intros c; split; simpl; auto.
Qed.

Lemma on_tool_result_quiet data : quiet (on_tool_result data).
Proof.
  intros c. unfold on_tool_result. run_py.
  destruct (py_get data "id" JNull) as [mid|e]; simpl.
  2:{ eexists _, _, _. split; [reflexivity|]. split;
      [apply listener_frame_refl | constructor]. }
  destruct (py_key mid) as [k|e]; simpl.
  2:{ eexists _, _, _. split; [reflexivity|]. split;
      [apply listener_frame_refl | repeat constructor]. }
  case_bool_decide as Hk; simpl.
  - eexists _, _, _. split; [reflexivity|]. split; [|repeat constructor].
    split; simpl; auto.
    + intros k'. destruct (decide (k = k')) as [->|Hne].
      * rewrite lookup_insert_eq. split; eauto.
      * rewrite lookup_insert_ne by done. reflexivity.
    + intros k' Hk'. destruct (decide (k = k')) as [->|Hne].
      * apply lookup_insert_eq.
      * rewrite lookup_insert_ne by done. exact Hk'.
    + intros k'. destruct (decide (k = k')) as [->|Hne].
      * rewrite lookup_insert_eq. discriminate.
      * rewrite !lookup_insert_ne by done. reflexivity.
  - eexists _, _, _. split; [reflexivity|]. split; [|repeat constructor].
    split; simpl; auto.
    intros k' Hk'. destruct (decide (k = k')) as [->|Hne].
    + exfalso. apply Hk. rewrite Hk'. eauto.
    + rewrite lookup_insert_ne by done. reflexivity.
Qed.

Lemma handle_event_quiet text : quiet (handle_event json_loads text).
Proof.
  unfold handle_event, py_json_loads.
  apply quiet_try_except; [|auto with quiet].
  apply quiet_bind; [destruct (json_loads text); auto with quiet|].
  intros data. apply quiet_bind; [auto with quiet|]. intros ty.
  apply quiet_if; [apply on_connected_quiet|].
  apply quiet_bind; [auto with quiet|]. intros ty'.
  apply quiet_if; [apply on_tool_result_quiet | auto with quiet].
Qed.

Lemma sse_loop_quiet items : quiet (sse_loop json_loads items).
Proof.
  induction items as [|[text|e|] rest IH]; simpl; auto with quiet.
  apply quiet_bind; [auto with quiet|]. intros r.
  apply quiet_if; [auto with quiet|].
  apply quiet_bind; [|auto].
  apply quiet_if; [apply handle_event_quiet | auto with quiet].
Qed.

Lemma sse_except_quiet e : quiet (sse_except e).
Proof.
  unfold sse_except.
  repeat (first [apply quiet_bind; [|intros ?] | apply quiet_modify
                | solve [auto with quiet]]);
    intros c; split; simpl; auto.
Qed.

Lemma sse_resume_quiet items : quiet (sse_resume json_loads items).
Proof.
  apply quiet_try_except; [apply sse_loop_quiet | apply sse_except_quiet].
Qed.

(** The listener contains every exception: [sse_resume] always returns. *)
Lemma sse_resume_returns items c :
  ∃ st c' tr, sse_resume json_loads items c = (Ret st, c', tr) ∧
    listener_frame c c' ∧ Forall is_print tr.
Proof.
  unfold sse_resume, try_except, any_exception.
  destruct (sse_loop_quiet items c) as (r & c1 & t1 & -> & Hfr1 & Ht1).
  destruct r as [st|e]; [eauto 6|].
  unfold sse_except. run_py.
  eexists _, _, _. split; [reflexivity|]. split.
  - eapply listener_frame_trans; [exact Hfr1|]. split; simpl; auto.
  - apply Forall_app. split; [exact Ht1 | repeat constructor].
Qed.

End ListenerFacts.

(** ** The listener and one stream event *)

Section ListenerClaims.

Variable json_loads : string -> option json.

(** C9. An event whose data text is not valid JSON is logged and skipped:
    handling it returns normally, leaves the whole client object as it was
    (so the connected flag, the session identity and both correlation
    dictionaries are untouched) and prints the text; and the loop of a
    running listener goes on with the rest of the stream exactly as if the
    event had not been there, apart from the printed line. *)
Theorem malformed_event_logged_and_skipped (text : string) (rest : list sse_item)
    (c : MCPClient) :
  json_loads text = None →
  text ≠ EmptyString →
  running c = true →
  handle_event json_loads text c = (Ret tt, c, [APrint (LogNonJson text)]) ∧
  sse_loop json_loads (SseEvent text :: rest) c =
    (let '(r, c', tr) := sse_loop json_loads rest c in
     (r, c', APrint (LogNonJson text) :: tr)) ∧
  sse_resume json_loads (SseEvent text :: rest) c =
    (let '(r, c', tr) := sse_resume json_loads rest c in
     (r, c', APrint (LogNonJson text) :: tr)).
Proof.
  intros Hbad Hne Hrun.
  assert (Hev : handle_event json_loads text c
                = (Ret tt, c, [APrint (LogNonJson text)])).
  { unfold handle_event, py_json_loads. rewrite Hbad. reflexivity. }
  assert (Hloop : sse_loop json_loads (SseEvent text :: rest) c =
    (let '(r, c', tr) := sse_loop json_loads rest c in
     (r, c', APrint (LogNonJson text) :: tr))).
  { simpl. unfold bind at 1. unfold gets at 1. rewrite Hrun. simpl.
    assert (String.eqb text EmptyString = false) as ->
      by (apply String.eqb_neq; exact Hne).
    simpl. unfold bind. rewrite Hev.
    destruct (sse_loop json_loads rest c) as [[r c'] tr]. reflexivity. }
  split; [exact Hev|]. split; [exact Hloop|].
  unfold sse_resume, try_except. rewrite Hloop.
  destruct (sse_loop json_loads rest c) as [[[st|e] c'] tr]; [reflexivity|].
  simpl. destruct (sse_except e c') as [[r2 c2] t2]. reflexivity.
Qed.

(** X10. A payload that is valid JSON but not an object is not covered by C9: its
    [data.get] raises, the outer handler runs and the listener stops. *)
Lemma non_object_event_stops_listener (text : string) (rest : list sse_item)
    (c : MCPClient) (v : json) :
  json_loads text = Some v →
  (∀ kv, v ≠ JDict kv) →
  text ≠ EmptyString →
  running c = true →
  sse_resume json_loads (SseEvent text :: rest) c =
    (Ret Stopped, set_connection_event true (set_running false c),
     [APrint (LogSseError AttributeError)]).
Proof.
  intros Hv Hnd Hne Hrun.
  unfold sse_resume, try_except. simpl.
  unfold bind at 1. unfold gets at 1. rewrite Hrun. simpl.
  assert (String.eqb text EmptyString = false) as ->
    by (apply String.eqb_neq; exact Hne).
  simpl. unfold bind at 1.
  assert (handle_event json_loads text c = (Raise AttributeError, c, [])) as ->.
  { unfold handle_event, py_json_loads. rewrite Hv.
    destruct v; try reflexivity. exfalso. eapply Hnd. reflexivity. }
  reflexivity.
Qed.

(** C1, as the code has it.  A [tool_result] event whose identifier (any
    hashable JSON value) has no entry in [tool_events] is handled without an
    error and without a signal, and [tool_events] is unchanged; but the
    payload is not dropped: it is stored in [tool_results] under the event's
    identifier.  Every other entry of [tool_results] and every other field
    of the client object is unchanged. *)
Theorem unmatched_tool_result_is_stored (text : string) (fields : list (string * json))
    (mid : json) (k : dict_key) (c : MCPClient) :
  json_loads text = Some (JDict fields) →
  assoc_get "type" fields = Some (JStr "tool_result") →
  py_get (JDict fields) "id" JNull = Ret mid →
  py_key mid = Ret k →
  tool_events c !! k = None →
  ∃ c', handle_event json_loads text c = (Ret tt, c', [APrint (LogToolResult mid)]) ∧
    c' = set_tool_results (<[k := JDict fields]> (tool_results c)) c ∧
    tool_events c' = tool_events c ∧
    tool_results c' !! k = Some (JDict fields) ∧
    (∀ k', k' ≠ k → tool_results c' !! k' = tool_results c !! k') ∧
    client_id c' = client_id c ∧ connected c' = connected c ∧
    running c' = running c ∧ connection_event c' = connection_event c ∧
    tools_cache c' = tools_cache c.
Proof.
  intros Hv Hty Hid Hk Hev.
  exists (set_tool_results (<[k := JDict fields]> (tool_results c)) c). split.
  - unfold handle_event, py_json_loads. rewrite Hv.
    unfold on_tool_result. run_py. rewrite Hty. simpl.
    simpl in Hid. injection Hid as Hid. rewrite Hid, Hk. simpl.
    rewrite Hev. rewrite bool_decide_eq_false_2 by (intros [? ?]; discriminate).
    reflexivity.
  - simpl. repeat split; auto.
    + apply lookup_insert_eq.
    + intros k' Hne. apply lookup_insert_ne. congruence.
Qed.

End ListenerClaims.

(** C9 at a concrete input: the sample decoder rejects the text, and the
    running sample client skips it. *)
Lemma malformed_event_logged_and_skipped_witness :
  handle_event sample_loads "ping" (set_running true sample_client) =
    (Ret tt, set_running true sample_client, [APrint (LogNonJson "ping")]).
Proof.
  apply (malformed_event_logged_and_skipped sample_loads "ping" []
           (set_running true sample_client));
    [reflexivity | discriminate | reflexivity].
Defined.

(** C1 as stated fails: on the running sample client, which has no pending
    request at all, a [tool_result] event for the identifier msg-late leaves
    an entry for that identifier in [tool_results]. *)
Lemma unmatched_tool_result_not_discarded :
  tool_events (set_running true sample_client) !! KStr "msg-late" = None ∧
  tool_results (set_running true sample_client) !! KStr "msg-late" = None ∧
  ∃ c' tr,
    sse_resume sample_loads [SseEvent (flat_object sample_late_result)]
      (set_running true sample_client) = (Ret Listening, c', tr) ∧
    tool_results c' !! KStr "msg-late" = Some (flat_value sample_late_result).
Proof.
  split; [reflexivity|]. split; [reflexivity|].
  eexists _, _. split; [vm_compute; reflexivity|]. reflexivity.
Qed.

(** The amended C1 at the same input. *)
Lemma unmatched_tool_result_is_stored_witness :
  ∃ c', handle_event sample_loads (flat_object sample_late_result)
          (set_running true sample_client)
        = (Ret tt, c', [APrint (LogToolResult (JStr "msg-late"))]) ∧
    tool_events c' = tool_events (set_running true sample_client) ∧
    tool_results c' !! KStr "msg-late" = Some (flat_value sample_late_result).
Proof.
  destruct (unmatched_tool_result_is_stored sample_loads
              (flat_object sample_late_result)
              [("type", JStr "tool_result"); ("id", JStr "msg-late")]
              (JStr "msg-late") (KStr "msg-late")
              (set_running true sample_client))
    as (c' & Hrun & _ & Hev & Hres & _); try reflexivity.
  exists c'. split; [exact Hrun|]. split; [exact Hev | exact Hres].
Defined.

(** ** [connect] *)

Section ConnectClaims.

Variable json_loads : string -> option json.

(** What [connect] does once it has started the listener: the value of the
    handshake signal after the listener's progress decides between the
    timeout and returning whatever [client_id] holds. *)
Lemma connect_not_connected (timeout : Z) (stream : list sse_item) (c : MCPClient) :
  connected c = false →
  ∃ st c' tr,
    _sse_listener json_loads stream
      (set_sse_thread (Some (new_thread c)) (set_running true c)) = (st, c', tr) ∧
    connect json_loads timeout stream c =
      (if connection_event c'
       then Ret (client_id c')
       else Raise (TimeoutError "Failed to establish SSE connection within timeout period"),
       c',
       AThreadStart (new_thread c) :: tr ++
         [AWaitConnection timeout (connection_event c')]).
Proof.
  intros Hc. unfold connect. run_py. rewrite Hc.
  destruct (_sse_listener json_loads stream _) as [[st c'] tr] eqn:Hl.
  exists st, c', tr. split; [reflexivity|].
  unfold _sse_listener, try_except, any_exception in Hl. revert Hl. run_py.
  destruct (sse_loop json_loads stream _) as [[[st1|e] c1] t1]; simpl;
    intros [= <- <- <-]; destruct (connection_event _); simpl;
    rewrite ?app_nil_r; reflexivity.
Qed.

(** X1. The handshake: a [connected] event at the head of the stream makes
    [connect] return the identity it carries and sets the connected flag. *)
Lemma connect_handshake (timeout : Z) (text : string) (fields : list (string * json))
    (cid : json) (c : MCPClient) :
  connected c = false →
  text ≠ EmptyString →
  json_loads text = Some (JDict fields) →
  assoc_get "type" fields = Some (JStr "connected") →
  assoc_get "clientId" fields = Some cid →
  ∃ c' tr, connect json_loads timeout [SseEvent text] c = (Ret cid, c', tr) ∧
    connected c' = true ∧ client_id c' = cid.
Proof.
  intros Hc Hne Hv Hty Hcid. unfold connect. run_py. rewrite Hc.
  unfold _sse_listener, try_except, any_exception. run_py.
  assert (String.eqb text EmptyString = false) as ->
    by (apply String.eqb_neq; exact Hne).
  simpl. unfold handle_event, py_json_loads. rewrite Hv.
  unfold on_connected. run_py. rewrite Hty. simpl. rewrite Hcid. simpl.
  eexists _, _. split; [reflexivity|]. split; reflexivity.
Qed.

(** X2. No handshake within the timeout: when the listener has received nothing
    by the time the wait expires, [connect] raises the timeout error and the
    client is still not connected. *)
Lemma connect_timeout (timeout : Z) (c : MCPClient) :
  connected c = false →
  connection_event c = false →
  ∃ c' tr, connect json_loads timeout [] c =
      (Raise (TimeoutError "Failed to establish SSE connection within timeout period"),
       c', tr) ∧
    connected c' = false ∧ client_id c' = client_id c.
Proof.
  intros Hc Hev. unfold connect. run_py. rewrite Hc.
  unfold _sse_listener, try_except, any_exception. run_py. rewrite Hev. simpl.
  eexists _, _. split; [reflexivity|]. split; [exact Hc | reflexivity].
Qed.

(** The listener fails before any handshake: its handler sets the handshake
    signal, the wait in [connect] succeeds, and [connect] returns the
    unchanged [client_id] without raising; the client is not connected. *)
Lemma connect_listener_failure (timeout : Z) (e : exn) (rest : list sse_item)
    (c : MCPClient) :
  connected c = false →
  ∃ c' tr, connect json_loads timeout (SseRaise e :: rest) c =
      (Ret (client_id c), c', tr) ∧
    connected c' = false ∧ client_id c' = client_id c ∧ running c' = false.
Proof.
  intros Hc. unfold connect. run_py. rewrite Hc.
  unfold _sse_listener, try_except, any_exception, sse_except. run_py.
  eexists _, _. split; [reflexivity|]. repeat split; exact Hc.
Qed.

(** C7. On a connected client [connect] returns the stored identity at once:
    the client object is unchanged and the call performs no action at all
    (no thread is started, nothing is waited for), whatever the stream would
    deliver.  If the client got connected by an earlier [connect] that
    returned [v], the repeated call returns the same [v]. *)
Theorem connect_twice_same_identity (timeout : Z) (stream : list sse_item)
    (c : MCPClient) :
  connected c = true →
  connect json_loads timeout stream c = (Ret (client_id c), c, []) ∧
  ∀ t0 s0 c0 v tr0,
    connect json_loads t0 s0 c0 = (Ret v, c, tr0) →
    connect json_loads timeout stream c = (Ret v, c, []).
Proof.
  intros Hc.
  assert (Hsecond : connect json_loads timeout stream c = (Ret (client_id c), c, [])).
  { unfold connect. run_py. rewrite Hc. reflexivity. }
  split; [exact Hsecond|].
  intros t0 s0 c0 v tr0 Hfirst. rewrite Hsecond.
  destruct (connected c0) eqn:Hc0.
  - unfold connect in Hfirst. revert Hfirst. run_py. rewrite Hc0.
    intros [= <- <- <-]. reflexivity.
  - destruct (connect_not_connected t0 s0 c0 Hc0) as (st & c' & tr & _ & Heq).
    rewrite Heq in Hfirst.
    destruct (connection_event c'); [|discriminate].
    injection Hfirst as <- <- <-. reflexivity.
Qed.

End ConnectClaims.

(** C7 on the sample session. *)
Lemma connect_twice_same_identity_witness :
  connect sample_loads 10 [] sample_session = (Ret (JStr "abc123"), sample_session, []).
Proof.
  apply (connect_twice_same_identity sample_loads 10 [] sample_session).
  reflexivity.
Defined.

(** C3, where the code departs from it.  The server refuses the SSE
    connection of a fresh client: [connect] does not fail, it returns [None]
    as the identity, and the client is not connected. *)
Theorem connect_returns_none_on_listener_failure :
  ∃ c' tr,
    connect sample_loads 10 [SseRaise connection_refused] sample_client
      = (Ret JNull, c', tr) ∧
    connected c' = false ∧ client_id c' = JNull ∧
    In (AWaitConnection 10 true) tr.
Proof.
  eexists _, _. split; [vm_compute; reflexivity|].
  split; [reflexivity|]. split; [reflexivity|].
  simpl. auto 10.
Qed.

(** ** [disconnect] *)

Section DisconnectClaims.

Variable json_loads : string -> option json.

(** Once [running] is cleared the listener handles no further event: the
    most it still does is die of a transport error, which sets the handshake
    signal. *)
Lemma sse_resume_not_running (items : list sse_item) (c : MCPClient) :
  running c = false →
  ∃ st c' tr, sse_resume json_loads items c = (Ret st, c', tr) ∧
    (c' = c ∨ c' = set_connection_event true c) ∧
    (items = [] → c' = c) ∧ Forall is_print tr.
Proof.
  intros Hrun. unfold sse_resume, try_except, any_exception, sse_except.
  destruct items as [|[text|e|] rest]; simpl; run_py; rewrite ?Hrun; simpl.
  - eexists _, _, _. split; [reflexivity|]. auto.
  - eexists _, _, _. split; [reflexivity|]. split; [auto|]. split; [discriminate|auto].
  - eexists _, _, _. split; [reflexivity|].
    split; [|split; [discriminate | repeat constructor]].
    right. destruct c; simpl in *. subst. reflexivity.
  - eexists _, _, _. split; [reflexivity|]. split; [auto|]. split; [discriminate|auto].
Qed.

Lemma disconnect_spec (during_join : list sse_item) (c : MCPClient) :
  ∃ c1 tr,
    disconnect json_loads during_join c =
      (Ret tt, set_tools_cache JNull (set_client_id JNull (set_connected false c1)), tr) ∧
    (c1 = set_running false c ∨ c1 = set_connection_event true (set_running false c)) ∧
    (during_join = [] → c1 = set_running false c) ∧
    Forall (λ a, ¬ is_thread_start a ∧ ¬ is_http_post a) tr.
Proof.
  unfold disconnect. step_py. simpl.
  destruct (sse_thread c) as [h|]; step_py.
  - destruct (sse_resume_not_running during_join (set_running false c))
      as (st & c1 & tr & Hres & Hc1 & Hnil & Htr); [reflexivity|].
    unfold bind at 1. rewrite Hres. step_py. unfold ret, modify, bind. simpl.
    eexists c1, _. split; [reflexivity|]. split; [exact Hc1|].
    split; [exact Hnil|].
    constructor; [simpl; tauto|].
    apply Forall_app. split; [|repeat constructor; simpl; tauto].
    eapply Forall_impl; [exact Htr|].
    intros [] Ha; simpl in *; tauto.
  - unfold ret. simpl.
    eexists _, _. split; [reflexivity|]. split; [left; reflexivity|].
    split; [reflexivity|].
    repeat constructor; simpl; tauto.
Qed.

(** C8. [disconnect] always returns normally and leaves the session state
    cleared: no identity, the connected flag off, no cached tool list (and
    [running] off).  Calling it again returns normally too and changes
    nothing of that: at most the handshake signal differs afterwards (set by
    a listener dying during the second call), and when the listener does
    nothing during the second call the whole client object is identical. *)
Theorem disconnect_clears_and_is_idempotent (join1 join2 : list sse_item)
    (c : MCPClient) :
  ∃ c1 tr1 c2 tr2 tr3,
    disconnect json_loads join1 c = (Ret tt, c1, tr1) ∧
    client_id c1 = JNull ∧ connected c1 = false ∧ tools_cache c1 = JNull ∧
    running c1 = false ∧
    disconnect json_loads join2 c1 = (Ret tt, c2, tr2) ∧
    (c2 = c1 ∨ c2 = set_connection_event true c1) ∧
    client_id c2 = JNull ∧ connected c2 = false ∧ tools_cache c2 = JNull ∧
    running c2 = false ∧
    disconnect json_loads [] c1 = (Ret tt, c1, tr3).
Proof.
  destruct (disconnect_spec join1 c) as (d1 & tr1 & Hrun1 & Hd1 & _).
  set (c1 := set_tools_cache JNull (set_client_id JNull (set_connected false d1))) in *.
  assert (Hr1 : running c1 = false) by (destruct Hd1; subst; reflexivity).
  assert (Hid : ∀ d, running d = false → connected d = false →
                     client_id d = JNull → tools_cache d = JNull →
                     set_tools_cache JNull (set_client_id JNull
                       (set_connected false (set_running false d))) = d).
  { intros [] ????; simpl in *; subst; reflexivity. }
  destruct (disconnect_spec join2 c1) as (d2 & tr2 & Hrun2 & Hd2 & _).
  destruct (disconnect_spec [] c1) as (d3 & tr3 & Hrun3 & _ & Hd3 & _).
  exists c1, tr1,
    (set_tools_cache JNull (set_client_id JNull (set_connected false d2))), tr2, tr3.
  split; [exact Hrun1|]. do 4 (split; [first [reflexivity | exact Hr1]|]).
  split; [exact Hrun2|].
  split.
  { destruct Hd2 as [-> | ->].
    - left. apply Hid; auto.
    - right. rewrite <- (Hid c1) at 2 by auto. reflexivity. }
  do 3 (split; [reflexivity|]).
  split; [destruct Hd2; subst; reflexivity|].
  rewrite Hrun3, (Hd3 eq_refl), Hid by auto. reflexivity.
Qed.

End DisconnectClaims.

(** ** [get_tools] *)

(** C10. [get_tools] always returns a value.  The cache counts as populated
    when the test of line 127 passes ([tools_cache] is truthy).
    - With a populated cache the call returns the cached value, performs no
      action (no request) and leaves the client object unchanged.
    - Otherwise it requests [/tools].  If the request raises, the call
      returns the empty list and the client object is unchanged, so the next
      call requests again.
    - The cache is populated after the call only if the request answered
      with a truthy value under the key tools; that value is returned and is
      what every later call returns, without a request.
    - When the answer carries the empty list, the empty list is returned and
      the cache is not populated afterwards, so the next call requests
      again.
    - When the answer carries a value with a length under the key tools,
      that value is returned and stored in [tools_cache] (line 138), after
      exactly one request.  When it is a non-empty list, the cache is
      populated afterwards and every later call returns the list without a
      request.
    - When the answer has no [get], or the value has no length, the call
      returns the empty list and the client object is unchanged. *)
Theorem get_tools_total_and_caches_nonempty (resp : http_result) (c : MCPClient) :
  ∃ v c' tr,
    get_tools resp c = (Ret v, c', tr) ∧
    (py_truthy (tools_cache c) = true →
       v = tools_cache c ∧ c' = c ∧ tr = []) ∧
    (py_truthy (tools_cache c) = false →
       In (AHttpGet (server_url c +:+ "/tools")) tr ∧
       (∀ e, resp = HttpRaise e →
          v = JList [] ∧ c' = c ∧
          ∀ resp', In (AHttpGet (server_url c +:+ "/tools"))
                      (snd (get_tools resp' c'))) ∧
       (py_truthy (tools_cache c') = true →
          (∃ data, resp = HttpJson data ∧ py_get data "tools" (JList []) = Ret v) ∧
          tools_cache c' = v ∧
          ∀ resp', get_tools resp' c' = (Ret v, c', [])) ∧
       (∀ data, resp = HttpJson data → py_get data "tools" (JList []) = Ret (JList []) →
          v = JList [] ∧ py_truthy (tools_cache c') = false ∧
          ∀ resp', In (AHttpGet (server_url c +:+ "/tools"))
                      (snd (get_tools resp' c'))) ∧
       (∀ data tools n, resp = HttpJson data →
          py_get data "tools" (JList []) = Ret tools → py_len tools = Ret n →
          v = tools ∧ c' = set_tools_cache tools c ∧ tools_cache c' = tools ∧
          tr = [APrint (LogGettingTools (server_url c +:+ "/tools"));
                AHttpGet (server_url c +:+ "/tools");
                APrint (LogRetrieved n)]) ∧
       (∀ data x rest, resp = HttpJson data →
          py_get data "tools" (JList []) = Ret (JList (x :: rest)) →
          v = JList (x :: rest) ∧ tools_cache c' = JList (x :: rest) ∧
          py_truthy (tools_cache c') = true ∧
          ∀ resp', get_tools resp' c' = (Ret (JList (x :: rest)), c', [])) ∧
       (∀ data e, resp = HttpJson data →
          (py_get data "tools" (JList []) = Raise e ∨
           ∃ tools, py_get data "tools" (JList []) = Ret tools ∧
                    py_len tools = Raise e) →
          v = JList [] ∧ c' = c)).
Proof.
  assert (Hfetch : ∀ resp' d, py_truthy (tools_cache d) = false →
            In (AHttpGet (server_url d +:+ "/tools")) (snd (get_tools resp' d))).
  { intros resp' d Hd. unfold get_tools. step_py. rewrite Hd.
    unfold try_except, http_get. step_py.
    destruct resp' as [data|e]; simpl.
    - step_py. destruct (py_get data "tools" (JList [])) as [tools|e]; simpl.
      + step_py. destruct (py_len tools) as [n|e]; simpl.
        * step_py. simpl. auto.
        * simpl. auto.
      + simpl. auto.
    - simpl. auto. }
  assert (Hcached : ∀ resp' d, py_truthy (tools_cache d) = true →
            get_tools resp' d = (Ret (tools_cache d), d, [])).
  { intros resp' d Hd. unfold get_tools. step_py. rewrite Hd. reflexivity. }
  destruct (py_truthy (tools_cache c)) eqn:Hcache.
  { exists (tools_cache c), c, []. split; [apply Hcached, Hcache|].
    split; [auto | discriminate]. }
  specialize (Hfetch resp c Hcache) as Hget.
  revert Hget. unfold get_tools. step_py. rewrite Hcache.
  unfold try_except, http_get. step_py.
  destruct resp as [data|e]; simpl.
  2:{ intros Hget. eexists _, _, _. split; [reflexivity|].
      split; [intros ?; congruence|]. intros _. split; [exact Hget|].
      split; [|split; [|split; [|split; [|split]]]].
      - intros e' _. split; [reflexivity|]. split; [reflexivity|].
        intros resp'. apply Hfetch, Hcache.
      - simpl. congruence.
      - intros data' [=].
      - intros data' tools n [=].
      - intros data' x rest [=].
      - intros data' e' [=]. }
  step_py. destruct (py_get data "tools" (JList [])) as [tools|e] eqn:Htools; simpl.
  2:{ intros Hget. eexists _, _, _. split; [reflexivity|].
      split; [intros ?; congruence|]. intros _. split; [exact Hget|].
      split; [|split; [|split; [|split; [|split]]]].
      - intros e' [=].
      - simpl. congruence.
      - intros data' [= <-]. congruence.
      - intros data' tools n [= <-]. congruence.
      - intros data' x rest [= <-]. congruence.
      - intros data' e' _ _. split; reflexivity. }
  step_py. destruct (py_len tools) as [n|e] eqn:Hlen; simpl.
  2:{ intros Hget. eexists _, _, _. split; [reflexivity|].
      split; [intros ?; congruence|]. intros _. split; [exact Hget|].
      split; [|split; [|split; [|split; [|split]]]].
      - intros e' [=].
      - simpl. congruence.
      - intros data' [= <-] Hempty. rewrite Htools in Hempty.
        injection Hempty as ->. discriminate Hlen.
      - intros data' tools' n [= <-] Htools' Hlen'.
        rewrite Htools in Htools'. injection Htools' as <-. congruence.
      - intros data' x rest [= <-] Htools'.
        rewrite Htools in Htools'. injection Htools' as ->. discriminate Hlen.
      - intros data' e' _ _. split; reflexivity. }
  step_py. unfold ret. simpl. intros Hget.
  eexists _, _, _. split; [reflexivity|].
  split; [intros ?; congruence|]. intros _. split; [exact Hget|].
  split; [|split; [|split; [|split; [|split]]]].
  - intros e' [=].
  - intros Htruthy. split; [eauto|]. split; [reflexivity|].
    intros resp'. apply (Hcached resp' (set_tools_cache tools c)), Htruthy.
  - intros data' [= <-] Hempty. rewrite Htools in Hempty. injection Hempty as ->.
    split; [reflexivity|]. split; [reflexivity|].
    intros resp'. apply (Hfetch resp' (set_tools_cache (JList []) c)). reflexivity.
  - intros data' tools' n' [= <-] Htools' Hlen'.
    rewrite Htools in Htools'. injection Htools' as <-.
    rewrite Hlen in Hlen'. injection Hlen' as <-.
    split; [reflexivity|]. split; [reflexivity|]. split; reflexivity.
  - intros data' x rest [= <-] Htools'.
    rewrite Htools in Htools'. injection Htools' as ->.
    split; [reflexivity|]. split; [reflexivity|]. split; [reflexivity|].
    intros resp'. apply (Hcached resp' (set_tools_cache (JList (x :: rest)) c)).
    reflexivity.
  - intros data' e' [= <-] [Hraise|(tools' & Htools' & Hraise)].
    + congruence.
    + rewrite Htools in Htools'. injection Htools' as <-. congruence.
Qed.

(** The three cases of C10 on the sample client. *)
Example get_tools_transport_error :
  get_tools (HttpRaise connection_refused) sample_client =
    (Ret (JList []), sample_client,
     [APrint (LogGettingTools "http://localhost:8080/tools");
      AHttpGet "http://localhost:8080/tools";
      APrint (LogToolsError connection_refused)]).
Proof. reflexivity. Qed.

Example get_tools_caches_nonempty_list :
  let tools := JList [JDict [("name", JStr "readFile")]] in
  let first := get_tools (HttpJson (JDict [("tools", tools)])) sample_client in
  fst (fst first) = Ret tools ∧
  get_tools (HttpRaise connection_refused) (snd (fst first)) =
    (Ret tools, snd (fst first), []).
Proof. split; reflexivity. Qed.

Example get_tools_refetches_empty_list :
  let first := get_tools (HttpJson (JDict [("tools", JList [])])) sample_client in
  fst (fst first) = Ret (JList []) ∧
  tools_cache (snd (fst first)) = JList [] ∧
  snd (get_tools (HttpJson (JDict [("tools", JList [])])) (snd (fst first))) =
    [APrint (LogGettingTools "http://localhost:8080/tools");
     AHttpGet "http://localhost:8080/tools";
     APrint (LogRetrieved 0)].
Proof. repeat split; reflexivity. Qed.

(** ** [invoke_tool] *)

Ltac step_py_in H :=
  repeat first
    [ rewrite bind_assoc in H | rewrite bind_ret in H | rewrite bind_gets in H
    | rewrite bind_modify in H | rewrite bind_lift_ret in H
    | rewrite bind_lift_raise in H | rewrite bind_emit in H
    | rewrite bind_print in H ].

Section InvokeFacts.

Variable json_loads : string -> option json.

Lemma extract_content_pure (tool_result : json) (c : MCPClient) :
  ∃ r, extract_content json_loads tool_result c = (r, c, []).
Proof.
  unfold extract_content.
  repeat first
    [ progress step_py
    | progress simpl
    | match goal with
      | |- context [lift ?o] =>
          lazymatch o with
          | Ret _ => fail
          | Raise _ => fail
          | _ => destruct o
          end
      | |- context [if ?b then _ else _] => destruct b
      | |- context [match ?x with JNull => _ | _ => _ end] => destruct x
      | |- context [match json_loads ?t with _ => _ end] => destruct (json_loads t)
      end
    | solve [eexists; reflexivity] ].
Qed.

Lemma send_spec (message_id tool_name : string) (parameters : json)
    (ack : http_result) (during_post : list sse_item) (c : MCPClient) :
  ∃ res c' tr,
    _send_tool_invocation json_loads message_id tool_name parameters ack during_post c
      = (Ret res, c', tr) ∧
    listener_frame c c' ∧
    Forall (λ a, is_print a ∨
                 a = AHttpPost (server_url c +:+ "/messages")
                       (invocation_payload message_id tool_name parameters (client_id c)))
      tr ∧
    (py_truthy (client_id c) = false →
       res = not_connected_error ∧ c' = c ∧ tr = []) ∧
    (py_truthy (client_id c) = true →
       res = match ack with
             | HttpJson body => body
             | HttpRaise e => JDict [("error", JStr (exn_str e))]
             end).
Proof.
  unfold _send_tool_invocation. step_py.
  destruct (py_truthy (client_id c)) eqn:Hcid; simpl.
  2:{ exists not_connected_error, c, []. split; [reflexivity|].
      split; [apply listener_frame_refl|]. split; [constructor|].
      split; [auto | discriminate]. }
  step_py. unfold try_except, any_exception. step_py.
  destruct (sse_resume_returns json_loads during_post c)
    as (st & c' & tr & Hres & Hfr & Htr).
  unfold bind at 1. rewrite Hres.
  assert (Hprints : Forall (λ a, is_print a ∨
                 a = AHttpPost (server_url c +:+ "/messages")
                       (invocation_payload message_id tool_name parameters (client_id c)))
            tr).
  { eapply Forall_impl; [exact Htr|]. auto. }
  destruct ack as [body|e];
    [|destruct e as [| | | | | msg | msg [text|]]]; run_py;
    (eexists _, _, _; split; [reflexivity|]; split; [exact Hfr|];
     split; [|split; [discriminate | reflexivity]]);
    repeat first
      [ apply Forall_nil_2
      | apply Forall_cons_2; [simpl; auto|]
      | apply Forall_app_2
      | exact Hprints ].
Qed.

(** The paths through [invoke_tool].  The call registers the event, sends
    the invocation, and then either returns at once (the acknowledgment
    holds an error, or the membership test itself raises), or waits and ends
    in the timeout branch or in the result branch. *)
Lemma invoke_tool_paths (tool_name : string) (parameters : json) (timeout : Z)
    (uuid : string) (ack : http_result) (during_post during_wait : list sse_item)
    (c : MCPClient) :
  let message_id := "msg-" +:+ uuid in
  let k := KStr message_id in
  let c1 := set_tool_events (<[k := false]> (tool_events c)) c in
  let call := invoke_tool json_loads tool_name parameters timeout uuid ack
                during_post during_wait c in
  ∃ res c2 t2,
    _send_tool_invocation json_loads message_id tool_name parameters ack during_post c1
      = (Ret res, c2, t2) ∧
    ((py_in "error" res ≠ Ret false ∧
      ∃ r, call = (r, c2, ANewEvent k :: t2) ∧
           (py_in "error" res = Ret true → r = Ret res))
     ∨
     (py_in "error" res = Ret false ∧
      ∃ st c3 t3,
        sse_resume json_loads during_wait c2 = (Ret st, c3, t3) ∧
        listener_frame c2 c3 ∧ Forall is_print t3 ∧
        ((tool_events c3 !! k = Some false ∧
          call = (Ret (timeout_error timeout),
                  set_tool_events (delete k (tool_events c3)) c3,
                  ANewEvent k :: t2 ++ APrint (LogWaiting message_id) :: t3 ++
                    [AWaitResult k timeout false]))
         ∨
         (tool_events c3 !! k = Some true ∧
          ∃ r c',
            call = (r, c',
                    ANewEvent k :: t2 ++ APrint (LogWaiting message_id) :: t3 ++
                      [AWaitResult k timeout true]) ∧
            tool_events c' = delete k (tool_events c3) ∧
            tool_results c' = delete k (tool_results c3))))).
Proof.
  intros message_id k c1 call.
  destruct (send_spec message_id tool_name parameters ack during_post c1)
    as (res & c2 & t2 & Hsend & Hfr12 & _).
  exists res, c2, t2. split; [exact Hsend|].
  assert (Hcall : call = invoke_tool json_loads tool_name parameters timeout uuid
                           ack during_post during_wait c) by reflexivity.
  clearbody call.
  unfold invoke_tool, new_tool_event in Hcall. step_py_in Hcall.
  fold message_id in Hcall. fold k in Hcall. fold c1 in Hcall.
  unfold bind at 1 in Hcall. rewrite Hsend in Hcall.
  destruct (py_in "error" res) as [[|]|e] eqn:Herr.
  - left. split; [discriminate|]. step_py_in Hcall. unfold ret in Hcall.
    simpl in Hcall. rewrite app_nil_r in Hcall. eauto.
  - right. split; [reflexivity|].
    assert (Hk2 : is_Some (tool_events c2 !! k)).
    { apply (lf_dom _ _ Hfr12). subst c1. simpl. rewrite lookup_insert_eq. eauto. }
    destruct (sse_resume_returns json_loads during_wait c2)
      as (st & c3 & t3 & Hres & Hfr23 & Ht3).
    exists st, c3, t3. split; [exact Hres|]. split; [exact Hfr23|].
    split; [exact Ht3|].
    assert (Hk3 : is_Some (tool_events c3 !! k)) by (by apply (lf_dom _ _ Hfr23)).
    step_py_in Hcall. destruct Hk2 as [f2 Hk2]. rewrite Hk2 in Hcall.
    unfold bind at 1 in Hcall. rewrite Hres in Hcall. step_py_in Hcall.
    destruct Hk3 as [[|] Hk3]; rewrite Hk3 in Hcall; simpl in Hcall.
    + right. split; [exact Hk3|].
      unfold del_tool_event in Hcall. step_py_in Hcall.
      rewrite Hk3 in Hcall. step_py_in Hcall. simpl in Hcall.
      destruct (decide (is_Some (tool_results c3 !! k))) as [Hin|Hin];
        [rewrite (bool_decide_eq_true_2 _ Hin) in Hcall
        |rewrite (bool_decide_eq_false_2 _ Hin) in Hcall];
        step_py_in Hcall;
        match type of Hcall with
        | context [extract_content json_loads ?tr ?d] =>
            destruct (extract_content_pure tr d) as [r Hr]; rewrite Hr in Hcall
        end;
        simpl in Hcall; rewrite ?app_nil_r in Hcall;
        (eexists _, _; split; [exact Hcall|]); simpl; [auto|].
      split; [reflexivity|].
      symmetry. apply delete_id.
      destruct (tool_results c3 !! k) eqn:E; [|reflexivity].
      exfalso. apply Hin. eauto.
    + left. split; [exact Hk3|].
      unfold del_tool_event in Hcall. step_py_in Hcall.
      rewrite Hk3 in Hcall. step_py_in Hcall. unfold ret in Hcall.
      simpl in Hcall. rewrite ?app_nil_r in Hcall. exact Hcall.
  - left. split; [discriminate|]. step_py_in Hcall. simpl in Hcall.
    rewrite app_nil_r in Hcall. eexists. split; [exact Hcall|]. discriminate.
Qed.

End InvokeFacts.

Section InvokeClaims.

Variable json_loads : string -> option json.

(** C5. With no session identity ([client_id] is [None], or empty),
    [invoke_tool] returns the not-connected error at once: apart from
    creating the event for the generated identifier it performs no action,
    so it posts nothing to the server and waits for nothing. *)
Theorem invoke_not_connected_fails_fast (tool_name : string) (parameters : json)
    (timeout : Z) (uuid : string) (ack : http_result)
    (during_post during_wait : list sse_item) (c : MCPClient) :
  py_truthy (client_id c) = false →
  ∃ c' tr,
    invoke_tool json_loads tool_name parameters timeout uuid ack
      during_post during_wait c = (Ret not_connected_error, c', tr) ∧
    tr = [ANewEvent (KStr ("msg-" +:+ uuid))] ∧
    Forall (λ a, ¬ is_http_post a ∧ ¬ is_wait_result a) tr ∧
    listener_frame (set_tool_events
                      (<[KStr ("msg-" +:+ uuid) := false]> (tool_events c)) c) c' ∧
    client_id c' = client_id c ∧ connected c' = connected c.
Proof.
  intros Hcid.
  unfold invoke_tool, new_tool_event, _send_tool_invocation. step_py.
  simpl. rewrite Hcid. simpl. step_py. simpl. step_py.
  eexists _, _. split; [reflexivity|]. split; [reflexivity|].
  split; [repeat constructor; simpl; tauto|].
  split; [apply listener_frame_refl|]. split; reflexivity.
Qed.

(** What C4 runs into.  When the post raises, [invoke_tool] returns the
    error at once, without waiting, but the event it created for the
    identifier is still in [tool_events] afterwards. *)
Lemma invoke_dispatch_failure_keeps_entry (tool_name : string) (parameters : json)
    (timeout : Z) (uuid : string) (e : exn)
    (during_post during_wait : list sse_item) (c : MCPClient) :
  py_truthy (client_id c) = true →
  ∃ c' tr,
    invoke_tool json_loads tool_name parameters timeout uuid (HttpRaise e)
      during_post during_wait c
      = (Ret (JDict [("error", JStr (exn_str e))]), c', tr) ∧
    Forall (λ a, ¬ is_wait_result a) tr ∧
    is_Some (tool_events c' !! KStr ("msg-" +:+ uuid)).
Proof.
  intros Hcid.
  set (k := KStr ("msg-" +:+ uuid)) in *.
  set (c1 := set_tool_events (<[k := false]> (tool_events c)) c).
  destruct (send_spec json_loads ("msg-" +:+ uuid) tool_name parameters
              (HttpRaise e) during_post c1)
    as (res & c2 & t2 & Hsend & Hfr12 & Ht2 & _ & Hres).
  specialize (Hres Hcid). subst res.
  destruct (invoke_tool_paths json_loads tool_name parameters timeout uuid
              (HttpRaise e) during_post during_wait c)
    as (res' & c2' & t2' & Hsend' & Hpaths).
  fold k in Hsend', Hpaths. fold c1 in Hsend'.
  rewrite Hsend in Hsend'. injection Hsend' as <- <- <-.
  destruct Hpaths as [(_ & r & Hcall & Hr) | (Hno & _)]; [|discriminate Hno].
  rewrite (Hr eq_refl) in Hcall.
  eexists _, _. split; [exact Hcall|]. split.
  - apply Forall_cons_2; [simpl; tauto|].
    eapply Forall_impl; [exact Ht2|]. intros a [Ha| ->]; [|simpl; tauto].
    destruct a; simpl in *; tauto.
  - apply (lf_dom _ _ Hfr12). subst c1. simpl. rewrite lookup_insert_eq. eauto.
Qed.

End InvokeClaims.

(** C5 on the fresh sample client, which has no identity. *)
Lemma invoke_not_connected_fails_fast_witness :
  ∃ c' tr,
    invoke_tool sample_loads "readDirectory" (JDict [("dirPath", JStr ".")]) 5
      "0001" (HttpJson (JDict [])) [] [] sample_client
      = (Ret not_connected_error, c', tr) ∧
    tr = [ANewEvent (KStr "msg-0001")].
Proof.
  destruct (invoke_not_connected_fails_fast sample_loads "readDirectory"
              (JDict [("dirPath", JStr ".")]) 5 "0001" (HttpJson (JDict [])) [] []
              sample_client)
    as (c' & tr & Hcall & Htr & _); [reflexivity|].
  exists c', tr. split; [exact Hcall | exact Htr].
Defined.

(** C4, where the code departs from it.  On the sample session the post
    fails with a transport error: the call returns the error at once and
    waits for nothing, but the event it registered under its identifier,
    absent before the call, is still in [tool_events] after it. *)
Theorem invoke_dispatch_failure_leaks_entry :
  tool_events sample_session !! KStr "msg-0001" = None ∧
  ∃ c' tr,
    invoke_tool sample_loads "readDirectory" (JDict [("dirPath", JStr ".")]) 5
      "0001" (HttpRaise connection_refused) [] [] sample_session
      = (Ret (JDict [("error", JStr "Connection refused")]), c', tr) ∧
    Forall (λ a, ¬ is_wait_result a) tr ∧
    tool_events c' !! KStr "msg-0001" = Some false.
Proof.
  split; [reflexivity|].
  eexists _, _. split; [vm_compute; reflexivity|].
  split; [repeat constructor; simpl; tauto | reflexivity].
Qed.

(** * Further properties of the client *)

(** ** The listener, event by event *)

Section ListenerEvents.

Variable json_loads : string -> option json.

(** X7. A [connected] event sets the identity to whatever the event carries
    under clientId ([None] when the field is missing), replacing any earlier
    identity, sets the connected flag and the handshake signal, and touches
    neither correlation dictionary. *)
Theorem connected_event_sets_identity (text : string) (fields : list (string * json))
    (c : MCPClient) :
  json_loads text = Some (JDict fields) →
  assoc_get "type" fields = Some (JStr "connected") →
  ∃ c', handle_event json_loads text c =
          (Ret tt, c', [APrint (LogConnected (default JNull (assoc_get "clientId" fields)))]) ∧
    client_id c' = default JNull (assoc_get "clientId" fields) ∧
    connected c' = true ∧ connection_event c' = true ∧
    tool_events c' = tool_events c ∧ tool_results c' = tool_results c ∧
    running c' = running c ∧ tools_cache c' = tools_cache c.
Proof.
  intros Hv Hty.
  unfold handle_event, py_json_loads. rewrite Hv.
  unfold on_connected. run_py. rewrite Hty. simpl.
  destruct (assoc_get "clientId" fields) as [cid|]; simpl;
    (eexists; split; [reflexivity|]); simpl; repeat split; reflexivity.
Qed.

(** X8. A [tool_result] event whose identifier has an entry in [tool_events]
    resolves it: the payload is stored under the identifier, the entry's
    signal is set, and every other entry of both dictionaries, like the
    session fields, is unchanged. *)
Theorem matched_tool_result_resolves (text : string) (fields : list (string * json))
    (mid : json) (k : dict_key) (c : MCPClient) :
  json_loads text = Some (JDict fields) →
  assoc_get "type" fields = Some (JStr "tool_result") →
  py_get (JDict fields) "id" JNull = Ret mid →
  py_key mid = Ret k →
  is_Some (tool_events c !! k) →
  ∃ c', handle_event json_loads text c = (Ret tt, c', [APrint (LogToolResult mid)]) ∧
    c' = set_tool_events (<[k := true]> (tool_events c))
           (set_tool_results (<[k := JDict fields]> (tool_results c)) c) ∧
    tool_events c' !! k = Some true ∧
    tool_results c' !! k = Some (JDict fields) ∧
    (∀ k', k' ≠ k → tool_events c' !! k' = tool_events c !! k' ∧
                    tool_results c' !! k' = tool_results c !! k') ∧
    client_id c' = client_id c ∧ connected c' = connected c ∧
    running c' = running c ∧ connection_event c' = connection_event c.
Proof.
  intros Hv Hty Hid Hk Hev.
  eexists. split.
  - unfold handle_event, py_json_loads. rewrite Hv.
    unfold on_tool_result. run_py. rewrite Hty. simpl.
    simpl in Hid. injection Hid as Hid. rewrite Hid, Hk. simpl.
    rewrite bool_decide_eq_true_2 by exact Hev.
    reflexivity.
  - simpl. split; [reflexivity|].
    split; [apply lookup_insert_eq|]. split; [apply lookup_insert_eq|].
    split; [|repeat split; reflexivity].
    intros k' Hne. rewrite !lookup_insert_ne by congruence. auto.
Qed.

(** X9. An event whose type is neither connected nor tool_result (an error
    event, an event without a type) is ignored: the client object is
    unchanged and nothing is printed. *)
Theorem other_event_types_ignored (text : string) (fields : list (string * json))
    (c : MCPClient) :
  json_loads text = Some (JDict fields) →
  assoc_get "type" fields ≠ Some (JStr "connected") →
  assoc_get "type" fields ≠ Some (JStr "tool_result") →
  handle_event json_loads text c = (Ret tt, c, []).
Proof.
  intros Hv Hc Ht.
  assert (Hneq : ∀ s, assoc_get "type" fields ≠ Some (JStr s) →
            py_eq_str (default JNull (assoc_get "type" fields)) s = false).
  { intros s Hs. destruct (assoc_get "type" fields) as [[]|]; simpl; try reflexivity.
    apply String.eqb_neq. congruence. }
  unfold handle_event, py_json_loads. rewrite Hv. run_py.
  change (match assoc_get "type" fields with Some x => x | None => JNull end)
    with (default JNull (assoc_get "type" fields)).
  rewrite (Hneq _ Hc). simpl. rewrite (Hneq _ Ht). reflexivity.
Qed.

(** X11. A [tool_result] event whose identifier is a list or an object cannot be
    a dictionary key: storing it raises, the outer handler runs, nothing is
    stored, and the listener stops with the handshake signal set. *)
Theorem unhashable_identifier_stops_listener (text : string)
    (fields : list (string * json)) (mid : json) (rest : list sse_item)
    (c : MCPClient) :
  json_loads text = Some (JDict fields) →
  assoc_get "type" fields = Some (JStr "tool_result") →
  assoc_get "id" fields = Some mid →
  py_key mid = Raise TypeError →
  text ≠ EmptyString →
  running c = true →
  sse_resume json_loads (SseEvent text :: rest) c =
    (Ret Stopped, set_connection_event true (set_running false c),
     [APrint (LogToolResult mid); APrint (LogSseError TypeError)]).
Proof.
  intros Hv Hty Hid Hk Hne Hrun.
  unfold sse_resume, try_except. simpl.
  unfold bind at 1. unfold gets at 1. rewrite Hrun. simpl.
  assert (String.eqb text EmptyString = false) as ->
    by (apply String.eqb_neq; exact Hne).
  simpl. unfold bind at 1.
  assert (handle_event json_loads text c
          = (Raise TypeError, c, [APrint (LogToolResult mid)])) as ->.
  { unfold handle_event, py_json_loads. rewrite Hv.
    unfold on_tool_result. run_py. rewrite Hty. simpl. rewrite Hid, Hk.
    reflexivity. }
  reflexivity.
Qed.

(** X6. Whatever the stream delivers, the listener function returns: it
    contains every exception.  Besides printing, its only action is the GET
    that opens the stream.  It never adds or removes a key of [tool_events],
    never clears a signal that is set, and stores no result under a key
    whose signal is still unset; the tool cache and the thread handle are
    not touched. *)
Theorem listener_returns_and_keeps_registrations (items : list sse_item)
    (c : MCPClient) :
  ∃ st c' tr,
    _sse_listener json_loads items c = (Ret st, c', tr) ∧
    Forall (λ a, is_print a ∨ is_http_get_to (server_url c +:+ "/sse") a) tr ∧
    (∀ k, is_Some (tool_events c' !! k) ↔ is_Some (tool_events c !! k)) ∧
    (∀ k, tool_events c !! k = Some true → tool_events c' !! k = Some true) ∧
    (∀ k, tool_events c' !! k = Some false →
          tool_results c' !! k = tool_results c !! k) ∧
    tools_cache c' = tools_cache c ∧ sse_thread c' = sse_thread c.
Proof.
  unfold _sse_listener, try_except, any_exception. step_py.
  destruct (sse_loop_quiet json_loads items c) as (r & c1 & t1 & Hloop & Hfr1 & Ht1).
  rewrite Hloop.
  assert (Ht : Forall (λ a, is_print a ∨ is_http_get_to (server_url c +:+ "/sse") a) t1).
  { eapply Forall_impl; [exact Ht1|]. auto. }
  destruct r as [st|e].
  - exists st, c1, (APrint (LogConnecting (server_url c +:+ "/sse"))
                     :: AHttpGet (server_url c +:+ "/sse") :: t1).
    split; [reflexivity|]. split.
    { repeat (apply Forall_cons_2; [simpl; auto|]). exact Ht. }
    destruct Hfr1. auto.
  - unfold sse_except. run_py.
    eexists _, _, _. split; [reflexivity|]. split.
    { repeat (apply Forall_cons_2; [simpl; auto|]).
      apply Forall_app_2; [exact Ht|]. repeat constructor. }
    destruct Hfr1. simpl. auto.
Qed.

(** X5. After the stream fails on a connected client, the connected flag and
    the identity are still set: [connect] keeps returning the old identity
    and starts no new listener. *)
Theorem connect_after_stream_failure_does_not_reconnect (e : exn)
    (rest : list sse_item) (timeout : Z) (stream : list sse_item) (c : MCPClient) :
  connected c = true →
  ∃ c' tr,
    sse_resume json_loads (SseRaise e :: rest) c = (Ret Stopped, c', tr) ∧
    running c' = false ∧ connected c' = true ∧ client_id c' = client_id c ∧
    connect json_loads timeout stream c' = (Ret (client_id c), c', []).
Proof.
  intros Hc.
  unfold sse_resume, try_except, any_exception, sse_except. run_py.
  eexists _, _. split; [reflexivity|]. simpl.
  split; [reflexivity|]. split; [exact Hc|]. split; [reflexivity|].
  unfold connect. run_py. rewrite Hc. reflexivity.
Qed.

End ListenerEvents.

(** ** [connect], [get_server_info], [disconnect] and [__init__] *)

Section SessionExtras.

Variable json_loads : string -> option json.

Lemma connect_signal_already_set (timeout : Z) (c : MCPClient) :
  connected c = false →
  connection_event c = true →
  connect json_loads timeout [] c =
    (Ret (client_id c),
     set_sse_thread (Some (new_thread c)) (set_running true c),
     [AThreadStart (new_thread c);
      APrint (LogConnecting (server_url c +:+ "/sse"));
      AHttpGet (server_url c +:+ "/sse");
      AWaitConnection timeout true]).
Proof.
  intros Hc Hev. unfold connect. run_py. rewrite Hc.
  unfold _sse_listener, try_except, any_exception. run_py. rewrite Hev.
  reflexivity.
Qed.

Lemma invoke_without_identity (tool_name : string) (parameters : json)
    (timeout : Z) (uuid : string) (ack : http_result)
    (during_post during_wait : list sse_item) (c : MCPClient) :
  py_truthy (client_id c) = false →
  invoke_tool json_loads tool_name parameters timeout uuid ack
    during_post during_wait c =
    (Ret not_connected_error,
     set_tool_events (<[KStr ("msg-" +:+ uuid) := false]> (tool_events c)) c,
     [ANewEvent (KStr ("msg-" +:+ uuid))]).
Proof.
  intros Hcid.
  unfold invoke_tool, new_tool_event, _send_tool_invocation. step_py.
  simpl. rewrite Hcid. simpl. step_py. simpl. step_py. reflexivity.
Qed.

Lemma get_tools_fetches_when_unpopulated (resp : http_result) (c : MCPClient) :
  py_truthy (tools_cache c) = false →
  In (AHttpGet (server_url c +:+ "/tools")) (snd (get_tools resp c)).
Proof.
  intros Hd. unfold get_tools. step_py. rewrite Hd.
  unfold try_except, http_get. step_py.
  destruct resp as [data|e]; simpl.
  - step_py. destruct (py_get data "tools" (JList [])) as [tools|e]; simpl.
    + step_py. destruct (py_len tools) as [n|e]; simpl.
      * step_py. simpl. auto.
      * simpl. auto.
    + simpl. auto.
  - simpl. auto.
Qed.

(** X3. The handshake signal is never cleared.  On a client that is not
    connected but whose signal is already set (after a disconnect, or after
    a failed listener), [connect] with nothing arriving on the stream does
    not time out: it returns the current [client_id] and the client stays
    not connected. *)
Theorem connect_with_stale_signal (timeout : Z) (c : MCPClient) :
  connected c = false →
  connection_event c = true →
  ∃ c' tr, connect json_loads timeout [] c = (Ret (client_id c), c', tr) ∧
    connected c' = false ∧ client_id c' = client_id c ∧
    In (AWaitConnection timeout true) tr.
Proof.
  intros Hc Hev. rewrite (connect_signal_already_set timeout c Hc Hev).
  eexists _, _. split; [reflexivity|]. split; [exact Hc|].
  split; [reflexivity|]. simpl. auto 10.
Qed.

(** X4. So a session cannot be re-established by [connect] alone: after a
    handshake and a [disconnect], a [connect] during which no event arrives
    returns [None] instead of raising the timeout error. *)
Theorem reconnect_after_disconnect_returns_none (timeout : Z)
    (during_join : list sse_item) (c : MCPClient) :
  connection_event c = true →
  ∃ c1 tr1 c2 tr2,
    disconnect json_loads during_join c = (Ret tt, c1, tr1) ∧
    connect json_loads timeout [] c1 = (Ret JNull, c2, tr2) ∧
    connected c2 = false ∧ client_id c2 = JNull.
Proof.
  intros Hev.
  destruct (disconnect_spec json_loads during_join c)
    as (d & tr1 & Hdis & Hd & _).
  set (c1 := set_tools_cache JNull (set_client_id JNull (set_connected false d))) in *.
  assert (Hev1 : connection_event c1 = true)
    by (destruct Hd; subst; simpl; auto).
  exists c1, tr1. eexists _, _. split; [exact Hdis|].
  split; [exact (connect_signal_already_set timeout c1 eq_refl Hev1)|].
  split; reflexivity.
Qed.

(** X12. [get_server_info] never raises and never changes the client object: it
    sends one GET to /info and returns the decoded body, or the empty dict
    when the request fails. *)
Theorem get_server_info_contained (resp : http_result) (c : MCPClient) :
  ∃ v tr, get_server_info resp c = (Ret v, c, tr) ∧
    v = match resp with HttpJson body => body | HttpRaise _ => JDict [] end ∧
    Forall (λ a, is_print a ∨ is_http_get_to (server_url c +:+ "/info") a) tr ∧
    In (AHttpGet (server_url c +:+ "/info")) tr.
Proof.
  unfold get_server_info, http_get, try_except, any_exception. step_py.
  destruct resp as [body|e]; run_py;
    (eexists _, _; split; [reflexivity|]; split; [reflexivity|]; split;
     [repeat (apply Forall_cons_2; [simpl; auto|]); constructor | simpl; auto]).
Qed.


(** X19. After [disconnect] an invocation fails fast with the not-connected
    error: nothing is posted and nothing is waited for. *)
Theorem invoke_after_disconnect_not_connected (during_join : list sse_item)
    (tool_name : string) (parameters : json) (timeout : Z) (uuid : string)
    (ack : http_result) (during_post during_wait : list sse_item) (c : MCPClient) :
  ∃ c1 tr1 c2 tr2,
    disconnect json_loads during_join c = (Ret tt, c1, tr1) ∧
    invoke_tool json_loads tool_name parameters timeout uuid ack
      during_post during_wait c1 = (Ret not_connected_error, c2, tr2) ∧
    Forall (λ a, ¬ is_http_post a ∧ ¬ is_wait_result a) tr2.
Proof.
  destruct (disconnect_spec json_loads during_join c)
    as (d & tr1 & Hdis & _).
  set (c1 := set_tools_cache JNull (set_client_id JNull (set_connected false d))) in *.
  exists c1, tr1. eexists _, _. split; [exact Hdis|].
  split; [exact (invoke_without_identity tool_name parameters timeout uuid ack
                   during_post during_wait c1 eq_refl)|].
  repeat constructor; simpl; tauto.
Qed.

(** X20. [disconnect] invalidates the tool cache: the next [get_tools] sends a
    request again, whatever was cached before. *)
Theorem get_tools_after_disconnect_refetches (during_join : list sse_item)
    (resp : http_result) (c : MCPClient) :
  ∃ c1 tr1,
    disconnect json_loads during_join c = (Ret tt, c1, tr1) ∧
    In (AHttpGet (server_url c +:+ "/tools")) (snd (get_tools resp c1)).
Proof.
  destruct (disconnect_spec json_loads during_join c)
    as (d & tr1 & Hdis & Hd & _).
  set (c1 := set_tools_cache JNull (set_client_id JNull (set_connected false d))) in *.
  exists c1, tr1. split; [exact Hdis|].
  replace (server_url c) with (server_url c1)
    by (destruct Hd; subst; reflexivity).
  apply get_tools_fetches_when_unpopulated. reflexivity.
Qed.

End SessionExtras.

Lemma rstrip_slash_snoc (s : string) :
  rstrip_slash (s +:+ "/") = rstrip_slash s.
Proof.
  induction s as [|a s IH]; [reflexivity|].
  simpl. rewrite IH. reflexivity.
Qed.

Lemma rstrip_slash_no_trailing (t s : string) : rstrip_slash t ≠ s +:+ "/".
Proof.
  revert s. induction t as [|a t IH]; intros s; simpl.
  - destruct s; discriminate.
  - destruct (rstrip_slash t) as [|b r] eqn:Ht.
    + destruct (Ascii.eqb a "/") eqn:Ha.
      * destruct s; discriminate.
      * destruct s as [|a' [|]]; simpl; try discriminate.
        intros [= ->]. rewrite Ascii.eqb_refl in Ha. discriminate.
    + destruct s as [|a' s']; simpl; [discriminate|].
      intros [= -> Hs]. apply (IH s'). exact Hs.
Qed.

(** X21. A trailing slash of the server address does not matter: the client is
    built from the address with its trailing slashes stripped, so the
    stored address never ends with a slash and the request URLs have
    exactly the slash of their path. *)
Theorem init_ignores_trailing_slash (url : string) :
  __init__ (url +:+ "/") = __init__ url ∧
  ∀ s, server_url (__init__ url) ≠ s +:+ "/".
Proof.
  split.
  - unfold __init__. rewrite rstrip_slash_snoc. reflexivity.
  - intros s. apply rstrip_slash_no_trailing.
Qed.

(** ** [invoke_tool]: the other exits *)

Section InvokeExtras.

Variable json_loads : string -> option json.

Lemma handle_event_tool_result (text : string) (fields : list (string * json))
    (k : dict_key) (c : MCPClient) :
  json_loads text = Some (JDict fields) →
  assoc_get "type" fields = Some (JStr "tool_result") →
  py_key (default JNull (assoc_get "id" fields)) = Ret k →
  is_Some (tool_events c !! k) →
  handle_event json_loads text c =
    (Ret tt,
     set_tool_events (<[k := true]> (tool_events c))
       (set_tool_results (<[k := JDict fields]> (tool_results c)) c),
     [APrint (LogToolResult (default JNull (assoc_get "id" fields)))]).
Proof.
  intros Hv Hty Hk Hev.
  unfold handle_event, py_json_loads. rewrite Hv.
  unfold on_tool_result. run_py. rewrite Hty. simpl.
  change (match assoc_get "id" fields with Some x => x | None => JNull end)
    with (default JNull (assoc_get "id" fields)).
  rewrite Hk. simpl.
  rewrite bool_decide_eq_true_2 by exact Hev.
  reflexivity.
Qed.

Lemma sse_resume_tool_result (text : string) (fields : list (string * json))
    (k : dict_key) (c : MCPClient) :
  running c = true →
  text ≠ EmptyString →
  json_loads text = Some (JDict fields) →
  assoc_get "type" fields = Some (JStr "tool_result") →
  py_key (default JNull (assoc_get "id" fields)) = Ret k →
  is_Some (tool_events c !! k) →
  sse_resume json_loads [SseEvent text] c =
    (Ret Listening,
     set_tool_events (<[k := true]> (tool_events c))
       (set_tool_results (<[k := JDict fields]> (tool_results c)) c),
     [APrint (LogToolResult (default JNull (assoc_get "id" fields)))]).
Proof.
  intros Hrun Hne Hv Hty Hk Hev.
  unfold sse_resume, try_except. simpl.
  unfold bind at 1. unfold gets at 1. rewrite Hrun. simpl.
  assert (String.eqb text EmptyString = false) as ->
    by (apply String.eqb_neq; exact Hne).
  simpl. unfold bind at 1.
  rewrite (handle_event_tool_result text fields k c Hv Hty Hk Hev).
  reflexivity.
Qed.

(** The exits of [invoke_tool] before the wait. *)
Lemma invoke_tool_early_exit (tool_name : string) (parameters : json) (timeout : Z)
    (uuid : string) (ack : http_result) (during_post during_wait : list sse_item)
    (c : MCPClient) (res : json) (c2 : MCPClient) (t2 : list action) :
  _send_tool_invocation json_loads ("msg-" +:+ uuid) tool_name parameters ack
    during_post
    (set_tool_events (<[KStr ("msg-" +:+ uuid) := false]> (tool_events c)) c)
    = (Ret res, c2, t2) →
  py_in "error" res ≠ Ret false →
  invoke_tool json_loads tool_name parameters timeout uuid ack
    during_post during_wait c =
    (match py_in "error" res with Ret _ => Ret res | Raise e => Raise e end,
     c2, ANewEvent (KStr ("msg-" +:+ uuid)) :: t2).
Proof.
  intros Hsend Herr.
  unfold invoke_tool, new_tool_event. step_py.
  unfold bind at 1. rewrite Hsend.
  destruct (py_in "error" res) as [[|]|e]; [|congruence|];
    step_py; unfold ret; simpl; rewrite ?app_nil_r; reflexivity.
Qed.

(** The result branch of [invoke_tool], for a result that is in
    [tool_results] when the wait ends. *)
Lemma invoke_tool_result_exit (tool_name : string) (parameters : json) (timeout : Z)
    (uuid : string) (ack : http_result) (during_post during_wait : list sse_item)
    (c : MCPClient) (res : json) (c2 : MCPClient) (t2 : list action)
    (st : listener_status) (c3 : MCPClient) (t3 : list action)
    (f2 : bool) (data : json) (r : outcome json) :
  let k := KStr ("msg-" +:+ uuid) in
  _send_tool_invocation json_loads ("msg-" +:+ uuid) tool_name parameters ack
    during_post (set_tool_events (<[k := false]> (tool_events c)) c)
    = (Ret res, c2, t2) →
  py_in "error" res = Ret false →
  tool_events c2 !! k = Some f2 →
  sse_resume json_loads during_wait c2 = (Ret st, c3, t3) →
  tool_events c3 !! k = Some true →
  tool_results c3 !! k = Some data →
  (∀ d, extract_content json_loads data d = (r, d, [])) →
  invoke_tool json_loads tool_name parameters timeout uuid ack
    during_post during_wait c =
    (r,
     set_tool_results (delete k (tool_results c3))
       (set_tool_events (delete k (tool_events c3)) c3),
     ANewEvent k :: t2 ++ APrint (LogWaiting ("msg-" +:+ uuid)) :: t3 ++
       [AWaitResult k timeout true]).
Proof.
  intros k Hsend Herr Hk2 Hres Hk3 Hdata Hext.
  unfold invoke_tool, new_tool_event. step_py. fold k.
  unfold bind at 1. rewrite Hsend. rewrite Herr. step_py.
  rewrite Hk2. unfold bind at 1. rewrite Hres. step_py.
  rewrite Hk3. simpl. unfold del_tool_event. step_py. rewrite Hk3. step_py.
  simpl.
  rewrite (bool_decide_eq_true_2 (is_Some (tool_results c3 !! k)))
    by (rewrite Hdata; eauto).
  rewrite Hdata. simpl. step_py.
  rewrite Hext. simpl. rewrite ?app_nil_r. reflexivity.
Qed.

Lemma extract_content_text_item (fields inner first : list (string * json))
    (others : list json) (text : string) (d : MCPClient) :
  assoc_get "content" fields = Some (JDict inner) →
  assoc_get "content" inner = Some (JList (JDict first :: others)) →
  assoc_get "text" first = Some (JStr text) →
  extract_content json_loads (JDict fields) d =
    (Ret (match json_loads text with
          | Some v => v
          | None => JDict [("text", JStr text)]
          end), d, []).
Proof.
  intros Hc Hi Ht.
  assert (Hne : py_truthy (JDict fields) = true)
    by (destruct fields; [discriminate Hc | reflexivity]).
  unfold extract_content. rewrite Hne.
  destruct (json_loads text) as [v|] eqn:Hv;
    repeat (progress (step_py; simpl; rewrite ?Hc, ?Hi, ?Ht, ?Hv; simpl));
    reflexivity.
Qed.

Lemma extract_content_plain (fields : list (string * json)) (d : MCPClient) :
  fields ≠ [] →
  assoc_get "content" fields = None →
  extract_content json_loads (JDict fields) d = (Ret (JDict fields), d, []).
Proof.
  intros Hne Hc.
  assert (Ht : py_truthy (JDict fields) = true)
    by (destruct fields; [congruence | reflexivity]).
  unfold extract_content. rewrite Ht. simpl. rewrite Hc. simpl.
  step_py. simpl. destruct fields; [congruence | reflexivity].
Qed.

(** The path of a delivered result through [invoke_tool]: the matching
    event arrives while the post is in flight ([early]) or during the
    wait. *)
Lemma invoke_tool_delivered (early : bool) (tool_name : string) (parameters : json)
    (timeout : Z) (uuid : string) (body : json) (text : string)
    (fields : list (string * json)) (r : outcome json) (c : MCPClient) :
  let k := KStr ("msg-" +:+ uuid) in
  py_truthy (client_id c) = true →
  running c = true →
  py_in "error" body = Ret false →
  text ≠ EmptyString →
  json_loads text = Some (JDict fields) →
  assoc_get "type" fields = Some (JStr "tool_result") →
  assoc_get "id" fields = Some (JStr ("msg-" +:+ uuid)) →
  (∀ d, extract_content json_loads (JDict fields) d = (r, d, [])) →
  ∃ c' tr,
    invoke_tool json_loads tool_name parameters timeout uuid (HttpJson body)
      (if early then [SseEvent text] else [])
      (if early then [] else [SseEvent text]) c = (r, c', tr) ∧
    In (AWaitResult k timeout true) tr ∧
    tool_events c' !! k = None ∧ tool_results c' !! k = None ∧
    (∀ k', k' ≠ k → tool_events c' !! k' = tool_events c !! k' ∧
                    tool_results c' !! k' = tool_results c !! k') ∧
    client_id c' = client_id c ∧ connected c' = connected c.
Proof.
  intros k Hcid Hrun Herr Hne Hv Hty Hid Hext.
  set (c1 := set_tool_events (<[k := false]> (tool_events c)) c).
  set (cd := set_tool_events (<[k := true]> (tool_events c1))
               (set_tool_results (<[k := JDict fields]> (tool_results c1)) c1)).
  assert (Hkey : py_key (default JNull (assoc_get "id" fields)) = Ret k)
    by (rewrite Hid; reflexivity).
  assert (Hk1 : is_Some (tool_events c1 !! k))
    by (subst c1; simpl; rewrite lookup_insert_eq; eauto).
  assert (Hdeliver : sse_resume json_loads [SseEvent text] c1 =
            (Ret Listening, cd,
             [APrint (LogToolResult (default JNull (assoc_get "id" fields)))]))
    by (apply sse_resume_tool_result; auto).
  assert (Hidle : ∀ d, sse_resume json_loads [] d = (Ret Listening, d, []))
    by reflexivity.
  assert (Hsend : ∀ items d' t',
            sse_resume json_loads items c1 = (Ret Listening, d', t') →
            _send_tool_invocation json_loads ("msg-" +:+ uuid) tool_name parameters
              (HttpJson body) items c1 =
            (Ret body, d',
             APrint (LogInvoking tool_name) :: APrint (LogParameters parameters)
               :: AHttpPost (server_url c +:+ "/messages")
                    (invocation_payload ("msg-" +:+ uuid) tool_name parameters
                       (client_id c))
               :: t')).
  { intros items d' t' Hitems.
    unfold _send_tool_invocation. step_py.
    change (client_id c1) with (client_id c). rewrite Hcid. simpl.
    step_py. unfold try_except, any_exception. step_py.
    unfold bind at 1. rewrite Hitems. unfold ret. simpl.
    rewrite app_nil_r. reflexivity. }
  assert (Hfinal : ∀ t2 t3,
    invoke_tool json_loads tool_name parameters timeout uuid (HttpJson body)
      (if early then [SseEvent text] else [])
      (if early then [] else [SseEvent text]) c =
    (r, set_tool_results (delete k (tool_results cd))
          (set_tool_events (delete k (tool_events cd)) cd),
     ANewEvent k :: t2 ++ APrint (LogWaiting ("msg-" +:+ uuid)) :: t3 ++
       [AWaitResult k timeout true]) →
    ∃ c' tr,
      invoke_tool json_loads tool_name parameters timeout uuid (HttpJson body)
        (if early then [SseEvent text] else [])
        (if early then [] else [SseEvent text]) c = (r, c', tr) ∧
      In (AWaitResult k timeout true) tr ∧
      tool_events c' !! k = None ∧ tool_results c' !! k = None ∧
      (∀ k', k' ≠ k → tool_events c' !! k' = tool_events c !! k' ∧
                      tool_results c' !! k' = tool_results c !! k') ∧
      client_id c' = client_id c ∧ connected c' = connected c).
  { intros t2 t3 Hcall. eexists _, _. split; [exact Hcall|].
    split.
    { right. apply in_or_app. right. right. apply in_or_app. right.
      left. reflexivity. }
    simpl. split; [apply lookup_delete_eq|]. split; [apply lookup_delete_eq|].
    split; [|split; reflexivity].
    intros k' Hk'.
    rewrite !lookup_delete_ne, !lookup_insert_ne by congruence. auto. }
  destruct early.
  - eapply Hfinal.
    eapply (invoke_tool_result_exit tool_name parameters timeout uuid
              (HttpJson body) [SseEvent text] [] c body cd _ Listening cd []
              true (JDict fields) r).
    + apply Hsend. exact Hdeliver.
    + exact Herr.
    + subst cd. simpl. apply lookup_insert_eq.
    + apply Hidle.
    + subst cd. simpl. apply lookup_insert_eq.
    + subst cd. simpl. apply lookup_insert_eq.
    + exact Hext.
  - eapply Hfinal.
    eapply (invoke_tool_result_exit tool_name parameters timeout uuid
              (HttpJson body) [] [SseEvent text] c body c1 _ Listening cd _
              false (JDict fields) r).
    + apply Hsend. apply Hidle.
    + exact Herr.
    + subst c1. simpl. apply lookup_insert_eq.
    + exact Hdeliver.
    + subst cd. simpl. apply lookup_insert_eq.
    + subst cd. simpl. apply lookup_insert_eq.
    + exact Hext.
Qed.

End InvokeExtras.

Section InvokeExits.

Variable json_loads : string -> option json.

(** X13. A delivered result whose nested content starts with a text item: the
    call returns the text decoded as JSON, or wrapped as a dict with the key
    text when it is not JSON.  This holds whether the event arrives during
    the wait or already while the post is in flight (the event is registered
    before the post, so an early result is not lost).  Afterwards the
    identifier is in neither dictionary and all other entries are as
    before. *)
Theorem invoke_returns_text_item_result (early : bool) (tool_name : string)
    (parameters : json) (timeout : Z) (uuid : string) (body : json) (text : string)
    (fields inner first : list (string * json)) (others : list json)
    (result_text : string) (c : MCPClient) :
  py_truthy (client_id c) = true →
  running c = true →
  py_in "error" body = Ret false →
  text ≠ EmptyString →
  json_loads text = Some (JDict fields) →
  assoc_get "type" fields = Some (JStr "tool_result") →
  assoc_get "id" fields = Some (JStr ("msg-" +:+ uuid)) →
  assoc_get "content" fields = Some (JDict inner) →
  assoc_get "content" inner = Some (JList (JDict first :: others)) →
  assoc_get "text" first = Some (JStr result_text) →
  ∃ c' tr,
    invoke_tool json_loads tool_name parameters timeout uuid (HttpJson body)
      (if early then [SseEvent text] else [])
      (if early then [] else [SseEvent text]) c =
      (Ret (match json_loads result_text with
            | Some v => v
            | None => JDict [("text", JStr result_text)]
            end), c', tr) ∧
    In (AWaitResult (KStr ("msg-" +:+ uuid)) timeout true) tr ∧
    tool_events c' !! KStr ("msg-" +:+ uuid) = None ∧
    tool_results c' !! KStr ("msg-" +:+ uuid) = None ∧
    (∀ k', k' ≠ KStr ("msg-" +:+ uuid) →
           tool_events c' !! k' = tool_events c !! k' ∧
           tool_results c' !! k' = tool_results c !! k').
Proof.
  intros Hcid Hrun Herr Hne Hv Hty Hid Hc Hi Ht.
  destruct (invoke_tool_delivered json_loads early tool_name parameters timeout
              uuid body text fields _ c Hcid Hrun Herr Hne Hv Hty Hid
              (λ d, extract_content_text_item json_loads fields inner first
                      others result_text d Hc Hi Ht))
    as (c' & tr & Hcall & Hin & He & Hr & Hother & _).
  exists c', tr. auto.
Qed.

(** X14. A delivered result without a content field is returned as the whole
    event object. *)
Theorem invoke_returns_plain_result (early : bool) (tool_name : string)
    (parameters : json) (timeout : Z) (uuid : string) (body : json) (text : string)
    (fields : list (string * json)) (c : MCPClient) :
  py_truthy (client_id c) = true →
  running c = true →
  py_in "error" body = Ret false →
  text ≠ EmptyString →
  json_loads text = Some (JDict fields) →
  assoc_get "type" fields = Some (JStr "tool_result") →
  assoc_get "id" fields = Some (JStr ("msg-" +:+ uuid)) →
  assoc_get "content" fields = None →
  ∃ c' tr,
    invoke_tool json_loads tool_name parameters timeout uuid (HttpJson body)
      (if early then [SseEvent text] else [])
      (if early then [] else [SseEvent text]) c = (Ret (JDict fields), c', tr) ∧
    tool_events c' !! KStr ("msg-" +:+ uuid) = None ∧
    tool_results c' !! KStr ("msg-" +:+ uuid) = None.
Proof.
  intros Hcid Hrun Herr Hne Hv Hty Hid Hc.
  assert (Hfields : fields ≠ []) by (intros ->; discriminate Hty).
  destruct (invoke_tool_delivered json_loads early tool_name parameters timeout
              uuid body text fields _ c Hcid Hrun Herr Hne Hv Hty Hid
              (λ d, extract_content_plain json_loads fields d Hfields Hc))
    as (c' & tr & Hcall & _ & He & Hr & _).
  exists c', tr. auto.
Qed.

(** X16. An acknowledgment that itself has an error key (or contains the text,
    for a list or a string) is returned as the result of the call, which
    then waits for nothing; the event created for the identifier stays in
    [tool_events]. *)
Theorem invoke_returns_ack_with_error (tool_name : string) (parameters : json)
    (timeout : Z) (uuid : string) (body : json)
    (during_post during_wait : list sse_item) (c : MCPClient) :
  py_truthy (client_id c) = true →
  py_in "error" body = Ret true →
  ∃ c' tr,
    invoke_tool json_loads tool_name parameters timeout uuid (HttpJson body)
      during_post during_wait c = (Ret body, c', tr) ∧
    Forall (λ a, ¬ is_wait_result a) tr ∧
    is_Some (tool_events c' !! KStr ("msg-" +:+ uuid)).
Proof.
  intros Hcid Herr.
  set (k := KStr ("msg-" +:+ uuid)) in *.
  set (c1 := set_tool_events (<[k := false]> (tool_events c)) c).
  destruct (send_spec json_loads ("msg-" +:+ uuid) tool_name parameters
              (HttpJson body) during_post c1)
    as (res & c2 & t2 & Hsend & Hfr12 & Ht2 & _ & Hres).
  specialize (Hres Hcid). subst res.
  rewrite (invoke_tool_early_exit json_loads tool_name parameters timeout uuid
             (HttpJson body) during_post during_wait c body c2 t2 Hsend)
    by (rewrite Herr; discriminate).
  rewrite Herr. eexists _, _. split; [reflexivity|]. split.
  - apply Forall_cons_2; [simpl; tauto|].
    eapply Forall_impl; [exact Ht2|]. intros a [Ha| ->]; [|simpl; tauto].
    destruct a; simpl in *; tauto.
  - apply (lf_dom _ _ Hfr12). subst c1. simpl. rewrite lookup_insert_eq. eauto.
Qed.

(** X17. An acknowledgment that is no container (null, a boolean or a number)
    makes the membership test raise: [invoke_tool] raises [TypeError]
    without waiting, and the event stays in [tool_events]. *)
Theorem invoke_raises_on_scalar_ack (tool_name : string) (parameters : json)
    (timeout : Z) (uuid : string) (body : json)
    (during_post during_wait : list sse_item) (c : MCPClient) :
  py_truthy (client_id c) = true →
  (body = JNull ∨ (∃ b, body = JBool b) ∨ (∃ n, body = JInt n)) →
  ∃ c' tr,
    invoke_tool json_loads tool_name parameters timeout uuid (HttpJson body)
      during_post during_wait c = (Raise TypeError, c', tr) ∧
    Forall (λ a, ¬ is_wait_result a) tr ∧
    is_Some (tool_events c' !! KStr ("msg-" +:+ uuid)).
Proof.
  intros Hcid Hbody.
  assert (Herr : py_in "error" body = Raise TypeError)
    by (destruct Hbody as [->|[[b ->]|[n ->]]]; reflexivity).
  set (k := KStr ("msg-" +:+ uuid)) in *.
  set (c1 := set_tool_events (<[k := false]> (tool_events c)) c).
  destruct (send_spec json_loads ("msg-" +:+ uuid) tool_name parameters
              (HttpJson body) during_post c1)
    as (res & c2 & t2 & Hsend & Hfr12 & Ht2 & _ & Hres).
  specialize (Hres Hcid). subst res.
  rewrite (invoke_tool_early_exit json_loads tool_name parameters timeout uuid
             (HttpJson body) during_post during_wait c body c2 t2 Hsend)
    by (rewrite Herr; discriminate).
  rewrite Herr. eexists _, _. split; [reflexivity|]. split.
  - apply Forall_cons_2; [simpl; tauto|].
    eapply Forall_impl; [exact Ht2|]. intros a [Ha| ->]; [|simpl; tauto].
    destruct a; simpl in *; tauto.
  - apply (lf_dom _ _ Hfr12). subst c1. simpl. rewrite lookup_insert_eq. eauto.
Qed.

End InvokeExits.

(** * The callers *)

Ltac run_script :=
  unfold stry, sbind, sout, sret, slift, of_client; simpl.

(** A property of every element of a trace built from pieces already known
    to satisfy a stronger one. *)
Ltac forall_trace :=
  repeat first
    [ apply Forall_nil_2
    | apply Forall_cons_2; [simpl; tauto|]
    | apply Forall_app_2
    | apply Forall_map; eapply Forall_impl; [eassumption|]; simpl; tauto ].

(** Membership of an element that sits towards the end of a trace. *)
Ltac in_tail :=
  repeat first
    [ apply in_eq
    | apply in_map; assumption
    | apply in_or_app; right
    | apply in_cons ].

Section CallerFacts.

Variable json_loads : string -> option json.

Lemma sse_listener_trace (items : list sse_item) (c : MCPClient) :
  ∃ st c' tr, _sse_listener json_loads items c = (Ret st, c', tr) ∧
    Forall (λ a, is_print a ∨ is_http_get_to (server_url c +:+ "/sse") a) tr.
Proof.
  unfold _sse_listener, try_except, any_exception. step_py.
  destruct (sse_loop_quiet json_loads items c) as (r & c1 & t1 & Hloop & _ & Ht1).
  rewrite Hloop.
  assert (Ht : Forall (λ a, is_print a ∨ is_http_get_to (server_url c +:+ "/sse") a) t1).
  { eapply Forall_impl; [exact Ht1|]. auto. }
  destruct r as [st|e].
  - eexists _, _, _. split; [reflexivity|].
    repeat (apply Forall_cons_2; [simpl; auto|]). exact Ht.
  - unfold sse_except. run_py.
    eexists _, _, _. split; [reflexivity|].
    repeat (apply Forall_cons_2; [simpl; auto|]).
    apply Forall_app_2; [exact Ht|]. repeat constructor.
Qed.

(** [connect] neither posts nor creates a tool event. *)
Lemma connect_trace (timeout : Z) (stream : list sse_item) (c : MCPClient) :
  Forall (λ a, ¬ is_http_post a ∧ ¬ is_new_event a ∧ ¬ is_wait_result a)
    (snd (connect json_loads timeout stream c)).
Proof.
  destruct (connected c) eqn:Hc.
  - unfold connect. run_py. rewrite Hc. constructor.
  - destruct (connect_not_connected json_loads timeout stream c Hc)
      as (st & c' & tr & Hl & ->).
    destruct (sse_listener_trace stream
                (set_sse_thread (Some (new_thread c)) (set_running true c)))
      as (st' & c'' & tr' & Hl' & Htr).
    rewrite Hl in Hl'. injection Hl' as -> -> ->. simpl.
    apply Forall_cons_2; [simpl; tauto|].
    apply Forall_app_2; [|repeat constructor; simpl; tauto].
    eapply Forall_impl; [exact Htr|].
    intros [] [Ha|Ha]; simpl in *; tauto.
Qed.

Lemma connect_fresh_timeout (timeout : Z) (url : string) :
  connect json_loads timeout [] (__init__ url) =
    (Raise (TimeoutError "Failed to establish SSE connection within timeout period"),
     set_sse_thread (Some 0%nat) (set_running true (__init__ url)),
     [AThreadStart 0;
      APrint (LogConnecting (rstrip_slash url +:+ "/sse"));
      AHttpGet (rstrip_slash url +:+ "/sse");
      AWaitConnection timeout false]).
Proof. reflexivity. Qed.

Lemma connect_fresh_unreachable (timeout : Z) (url : string) (e : exn)
    (rest : list sse_item) :
  connect json_loads timeout (SseRaise e :: rest) (__init__ url) =
    (Ret JNull,
     set_connection_event true
       (set_running false (set_sse_thread (Some 0%nat) (set_running true (__init__ url)))),
     [AThreadStart 0;
      APrint (LogConnecting (rstrip_slash url +:+ "/sse"));
      AHttpGet (rstrip_slash url +:+ "/sse");
      APrint (LogSseError e);
      AWaitConnection timeout true]).
Proof. reflexivity. Qed.

Lemma disconnect_clears (during_join : list sse_item) (c : MCPClient) :
  ∃ c' tr, disconnect json_loads during_join c = (Ret tt, c', tr) ∧
    session_cleared c' ∧
    Forall (λ a, ¬ is_thread_start a ∧ ¬ is_http_post a ∧ ¬ is_new_event a) tr ∧
    In (APrint LogDisconnected) tr.
Proof.
  unfold disconnect. step_py. simpl.
  destruct (sse_thread c) as [h|]; step_py.
  - destruct (sse_resume_not_running json_loads during_join (set_running false c))
      as (st & c1 & tr & Hres & Hc1 & _ & Htr); [reflexivity|].
    unfold bind at 1. rewrite Hres. step_py. unfold ret, modify, bind. simpl.
    eexists _, _. split; [reflexivity|]. split.
    { unfold session_cleared. destruct Hc1; subst; simpl; auto. }
    split.
    + constructor; [simpl; tauto|].
      apply Forall_app_2; [|repeat constructor; simpl; tauto].
      eapply Forall_impl; [exact Htr|].
      intros [] Ha; simpl in *; tauto.
    + right. apply in_or_app. right. left. reflexivity.
  - unfold ret. simpl.
    eexists _, _. split; [reflexivity|]. split; [repeat split|].
    split; [repeat constructor; simpl; tauto | left; reflexivity].
Qed.

End CallerFacts.

Section CallerClaims.

Variable json_loads : string -> option json.

(** X23. When no handshake arrives within the ten seconds of [connect],
    [execute_remote_tool] returns the error dict carrying the timeout
    message, posts nothing, and leaves the listener running: [running] is
    still set and the thread is never joined. *)
Theorem execute_remote_tool_connect_timeout (url tool_name : string)
    (parameters : json) (uuid : string) (ack : http_result)
    (during_post during_wait during_join : list sse_item) :
  ∃ c' t,
    execute_remote_tool json_loads url tool_name parameters [] uuid ack
      during_post during_wait during_join =
      (Ret (JDict [("error",
              JStr ("Error executing remote tool " +:+ tool_name +:+
                    ": Failed to establish SSE connection within timeout period"))]),
       c', t) ∧
    running c' = true ∧ sse_thread c' = Some 0%nat ∧
    no_client_action is_http_post t ∧
    no_client_action (λ a, ∃ h, a = AThreadJoin h) t.
Proof.
  unfold execute_remote_tool. run_script.
  eexists _, _. split; [reflexivity|].
  split; [reflexivity|]. split; [reflexivity|].
  split; repeat constructor; simpl; try tauto; intros [h [=]].
Qed.

(** X24. When the SSE endpoint cannot be reached, [connect] still returns, and
    [execute_remote_tool] reports the not-connected error of [invoke_tool]:
    nothing is posted, and the client ends disconnected. *)
Theorem execute_remote_tool_unreachable (url tool_name : string)
    (parameters : json) (e : exn) (rest : list sse_item) (uuid : string)
    (ack : http_result) (during_post during_wait during_join : list sse_item) :
  ∃ c' t,
    execute_remote_tool json_loads url tool_name parameters
      (SseRaise e :: rest) uuid ack during_post during_wait during_join =
      (Ret not_connected_error, c', t) ∧
    session_cleared c' ∧ no_client_action is_http_post t.
Proof.
  unfold execute_remote_tool, stry, sbind, sout, sret, of_client.
  rewrite connect_fresh_unreachable.
  rewrite invoke_without_identity by reflexivity.
  match goal with
  | |- context [disconnect json_loads during_join ?c] =>
      destruct (disconnect_clears json_loads during_join c)
        as (c' & tr & Hdis & Hclr & Htr & _); rewrite Hdis
  end.
  simpl. eexists _, _. split; [reflexivity|]. split; [exact Hclr|].
  unfold no_client_action.
  repeat (apply Forall_cons_2; [simpl; tauto|]).
  rewrite app_nil_r. apply Forall_map.
  eapply Forall_impl; [exact Htr|]. simpl. tauto.
Qed.

(** X25. [list_available_tools] on a connect timeout: the empty list, and no
    request for the tools is sent. *)
Theorem list_available_tools_connect_timeout (url : string)
    (resp : http_result) (during_join : list sse_item) :
  ∃ c' t,
    list_available_tools json_loads url [] resp during_join =
      (Ret (JList []), c', t) ∧
    running c' = true ∧
    no_client_action (is_http_get_to (rstrip_slash url +:+ "/tools")) t.
Proof.
  unfold list_available_tools. run_script.
  eexists _, _. split; [reflexivity|]. split; [reflexivity|].
  repeat constructor; simpl; try tauto.
  intros Heq.
  assert (Hlen : String.length (rstrip_slash url +:+ "/sse")
                 = String.length (rstrip_slash url +:+ "/tools"))
    by (rewrite Heq; reflexivity).
  revert Hlen. generalize (rstrip_slash url). clear.
  induction s as [|a s IH]; simpl; [discriminate|].
  intros [= H]. auto.
Qed.

(** X26. [list_available_tools] does not need the session: when the SSE endpoint
    cannot be reached but the tools request answers with a list, that list
    is returned, and the client ends disconnected. *)
Theorem list_available_tools_without_session (url : string) (e : exn)
    (rest : list sse_item) (fields : list (string * json)) (tools : list json)
    (during_join : list sse_item) :
  assoc_get "tools" fields = Some (JList tools) →
  ∃ c' t,
    list_available_tools json_loads url (SseRaise e :: rest)
      (HttpJson (JDict fields)) during_join = (Ret (JList tools), c', t) ∧
    session_cleared c' ∧
    In (ClientAction (AHttpGet (rstrip_slash url +:+ "/tools"))) t.
Proof.
  intros Htools.
  unfold list_available_tools. run_script.
  unfold get_tools, http_get, try_except. run_py. rewrite Htools. simpl.
  match goal with
  | |- context [disconnect json_loads during_join ?c] =>
      destruct (disconnect_clears json_loads during_join c)
        as (c' & tr & Hdis & Hclr & Htr & _); rewrite Hdis
  end.
  simpl. eexists _, _. split; [reflexivity|]. split; [exact Hclr|].
  simpl. auto 12.
Qed.

(** X27. [main] of mcp_client.py: the exit status is 0 or 1; parameters that are
    not JSON end the run with status 1 before any client exists; and every
    run that created the client leaves it disconnected (the [finally]
    clause), whatever happened before. *)
Theorem main_always_disconnects (url tool_name parameters_text : string)
    (stream : list sse_item) (info : http_result) (uuid : string)
    (ack : http_result) (during_post during_wait during_join : list sse_item) :
  ∃ status client t,
    main json_loads url tool_name parameters_text stream info uuid ack
      during_post during_wait during_join = (status, client, t) ∧
    (status = 0 ∨ status = 1) ∧
    (json_loads parameters_text = None →
       status = 1 ∧ client = None ∧
       t = [Output (LineInvalidParameters parameters_text)]) ∧
    (∀ parameters, json_loads parameters_text = Some parameters →
       ∃ c', client = Some c' ∧ session_cleared c' ∧
             In (ClientAction (APrint LogDisconnected)) t).
Proof.
  unfold main.
  destruct (json_loads parameters_text) as [parameters|].
  2:{ eexists _, _, _. split; [reflexivity|]. split; [auto|].
      split; [auto | discriminate]. }
  match goal with
  | |- context [stry ?body ?h ?c] =>
      assert (Hbody : ∃ status c1 t1, stry body h c = (Ret status, c1, t1) ∧
                        (status = 0 ∨ status = 1))
  end.
  { run_script.
    match goal with
    | |- context [main_try ?a ?b ?c ?d ?e ?f ?g ?h ?i] =>
        destruct (main_try a b c d e f g h i) as [[[u|e'] c1] t1]
    end; simpl; eexists _, _, _; (split; [reflexivity|]); auto. }
  destruct Hbody as (status & c1 & t1 & -> & Hstatus).
  unfold of_client.
  destruct (disconnect_clears json_loads during_join c1)
    as (c' & tr & Hdis & Hclr & _ & Hlast).
  rewrite Hdis.
  eexists _, _, _. split; [reflexivity|]. split; [exact Hstatus|].
  split; [discriminate|]. intros p _.
  eexists. split; [reflexivity|]. split; [exact Hclr | in_tail].
Qed.

(** X28. [main] exits with status 0 although nothing was invoked: when the SSE
    endpoint cannot be reached and the info request fails too, it prints
    Unknown for the server's name and version, prints the not-connected
    error as the result, and ends normally. *)
Theorem main_exits_zero_when_unreachable (url tool_name parameters_text : string)
    (parameters : json) (e e' : exn) (rest : list sse_item) (uuid : string)
    (ack : http_result) (during_post during_wait during_join : list sse_item) :
  json_loads parameters_text = Some parameters →
  ∃ c' t,
    main json_loads url tool_name parameters_text (SseRaise e :: rest)
      (HttpRaise e') uuid ack during_post during_wait during_join
      = (0, Some c', t) ∧
    In (Output (LineServer (JStr "Unknown") (JStr "Unknown"))) t ∧
    In (Output (LineResultJson not_connected_error)) t ∧
    no_client_action is_http_post t.
Proof.
  intros Hp. unfold main. rewrite Hp.
  unfold main_try, stry, sbind, sout, sret, slift, of_client.
  rewrite connect_fresh_unreachable.
  assert (Hinfo : ∀ d, get_server_info (HttpRaise e') d =
            (Ret (JDict []), d,
             [AHttpGet (server_url d +:+ "/info"); APrint (LogServerInfoError e')]))
    by reflexivity.
  rewrite Hinfo. cbn [py_get assoc_get].
  rewrite invoke_without_identity by reflexivity.
  match goal with
  | |- context [disconnect json_loads during_join ?c] =>
      destruct (disconnect_clears json_loads during_join c)
        as (c' & tr & Hdis & Hclr & Htr & _); rewrite Hdis
  end.
  eexists _, _. split; [reflexivity|].
  split; [simpl; auto 20|]. split; [simpl; auto 20|].
  unfold no_client_action. simpl.
  repeat (apply Forall_cons_2; [simpl; tauto|]).
  apply Forall_map.
  eapply Forall_impl; [exact Htr|]. simpl. tauto.
Qed.

(** X29. When the info request answers with JSON that is not an object, [main]
    fails on reading the server name: it exits with status 1 and never
    reaches the invocation (no event is created, nothing is posted). *)
Theorem main_fails_on_non_object_info (url tool_name parameters_text : string)
    (parameters : json) (stream : list sse_item) (v : json) (uuid : string)
    (ack : http_result) (during_post during_wait during_join : list sse_item) :
  json_loads parameters_text = Some parameters →
  (∀ kv, v ≠ JDict kv) →
  ∃ c' t,
    main json_loads url tool_name parameters_text stream
      (HttpJson v) uuid ack during_post during_wait during_join
      = (1, Some c', t) ∧
    no_client_action is_http_post t ∧ no_client_action is_new_event t.
Proof.
  intros Hp Hv. unfold main. rewrite Hp. unfold main_try. run_script.
  pose proof (connect_trace json_loads 10 stream (__init__ url)) as Hct.
  destruct (connect json_loads 10 stream (__init__ url))
    as [[[v1|e1] c1] t1]; simpl in *.
  - unfold get_server_info, http_get, try_except, any_exception. run_py.
    assert (Hget : py_get v "name" (JStr "Unknown") = Raise AttributeError).
    { destruct v; try reflexivity. exfalso. eapply Hv. reflexivity. }
    rewrite Hget. simpl.
    match goal with
    | |- context [disconnect json_loads during_join ?c] =>
        destruct (disconnect_clears json_loads during_join c)
          as (c' & tr & Hdis & Hclr & Htr & _); rewrite Hdis
    end.
    eexists _, _. split; [reflexivity|].
    split; unfold no_client_action; forall_trace.
  - match goal with
    | |- context [disconnect json_loads during_join ?c] =>
        destruct (disconnect_clears json_loads during_join c)
          as (c' & tr & Hdis & Hclr & Htr & _); rewrite Hdis
    end.
    eexists _, _. split; [reflexivity|].
    split; unfold no_client_action; forall_trace.
Qed.

(** X30. The connection test of test_mcp_server.py passes although no session
    exists: when the SSE endpoint cannot be reached (and the info request
    fails or answers with an object), [test_connection] prints the success
    line with [None] as the client ID and returns [True].  It returns [False]
    when no handshake arrives in time. *)
Theorem test_connection_passes_without_session (url : string) (e : exn)
    (rest : list sse_item) (info : http_result) (during_join : list sse_item) :
  (∀ v, info = HttpJson v → ∃ kv, v = JDict kv) →
  (∃ c' t,
     test_connection json_loads url (SseRaise e :: rest) info during_join
       = (true, c', t) ∧
     In (Output (LineConnectedSuccessfully JNull)) t ∧ session_cleared c') ∧
  (∃ c' t,
     test_connection json_loads url [] info during_join = (false, c', t) ∧
     In (Output (LineConnectionFailed
                   (TimeoutError "Failed to establish SSE connection within timeout period")))
        t ∧
     session_cleared c').
Proof.
  intros Hinfo. split.
  - unfold test_connection, stry, sbind, sout, sret, slift, of_client.
    rewrite connect_fresh_unreachable.
    assert (Hget : ∃ kv tr, ∀ d, get_server_info info d = (Ret (JDict kv), d, tr d)).
    { destruct info as [v|e'].
      - destruct (Hinfo v eq_refl) as [kv ->].
        exists kv. eexists (λ d, _). intros d. reflexivity.
      - exists []. eexists (λ d, _). intros d. reflexivity. }
    destruct Hget as (kv & tr & Hget). rewrite Hget. cbn [py_get].
    match goal with
    | |- context [disconnect json_loads during_join ?c] =>
        destruct (disconnect_clears json_loads during_join c)
          as (c' & tr' & Hdis & Hclr & _); rewrite Hdis
    end.
    eexists _, _. split; [reflexivity|]. split; [|exact Hclr].
    right. simpl. auto 10.
  - unfold test_connection, stry, sbind, sout, sret, slift, of_client.
    rewrite connect_fresh_timeout.
    match goal with
    | |- context [disconnect json_loads during_join ?c] =>
        destruct (disconnect_clears json_loads during_join c)
          as (c' & tr' & Hdis & Hclr & _); rewrite Hdis
    end.
    eexists _, _. split; [reflexivity|]. split; [|exact Hclr].
    right. simpl. auto 10.
Qed.

End CallerClaims.

(** * The properties above at concrete inputs *)

Lemma connected_event_sets_identity_witness :
  ∃ c', handle_event sample_loads (flat_object sample_connected) sample_client =
          (Ret tt, c', [APrint (LogConnected (JStr "abc123"))]) ∧
    client_id c' = JStr "abc123" ∧ connected c' = true ∧
    connection_event c' = true.
Proof.
  destruct (connected_event_sets_identity sample_loads (flat_object sample_connected)
              [("type", JStr "connected"); ("clientId", JStr "abc123")]
              sample_client)
    as (c' & Hrun & Hid & Hc & Hev & _); [reflexivity | reflexivity |].
  exists c'. auto.
Defined.

Lemma matched_tool_result_resolves_witness :
  ∃ c', handle_event sample_loads (flat_object sample_late_result)
          (set_tool_events {[KStr "msg-late" := false]} sample_client) =
          (Ret tt, c', [APrint (LogToolResult (JStr "msg-late"))]) ∧
    tool_events c' !! KStr "msg-late" = Some true ∧
    tool_results c' !! KStr "msg-late" = Some (flat_value sample_late_result).
Proof.
  destruct (matched_tool_result_resolves sample_loads
              (flat_object sample_late_result)
              [("type", JStr "tool_result"); ("id", JStr "msg-late")]
              (JStr "msg-late") (KStr "msg-late")
              (set_tool_events {[KStr "msg-late" := false]} sample_client))
    as (c' & Hrun & _ & Hev & Hres & _);
    [reflexivity | reflexivity | reflexivity | reflexivity
    | simpl; rewrite lookup_singleton_eq; eauto |].
  exists c'. auto.
Defined.

Lemma other_event_types_ignored_witness :
  handle_event sample_loads' (flat_object sample_error_event) sample_session =
    (Ret tt, sample_session, []).
Proof.
  apply (other_event_types_ignored sample_loads' (flat_object sample_error_event)
           [("type", JStr "error"); ("id", JStr "msg-0001")] sample_session);
    [reflexivity | discriminate | discriminate].
Defined.

Lemma unhashable_identifier_stops_listener_witness :
  sse_resume sample_loads' [SseEvent sample_list_id_text] sample_session =
    (Ret Stopped, set_connection_event true (set_running false sample_session),
     [APrint (LogToolResult (JList [JInt 1])); APrint (LogSseError TypeError)]).
Proof.
  apply (unhashable_identifier_stops_listener sample_loads' sample_list_id_text
           [("type", JStr "tool_result"); ("id", JList [JInt 1])]
           (JList [JInt 1]) [] sample_session);
    [reflexivity | reflexivity | reflexivity | reflexivity | discriminate
    | reflexivity].
Defined.

Lemma non_object_event_stops_listener_witness :
  sse_resume sample_loads' [SseEvent "[1, 2]"] sample_session =
    (Ret Stopped, set_connection_event true (set_running false sample_session),
     [APrint (LogSseError AttributeError)]).
Proof.
  apply (non_object_event_stops_listener sample_loads' "[1, 2]" [] sample_session
           (JList [JInt 1; JInt 2]));
    [reflexivity | discriminate | discriminate | reflexivity].
Defined.

Lemma connect_after_stream_failure_does_not_reconnect_witness :
  ∃ c' tr,
    sse_resume sample_loads [SseRaise connection_refused] sample_session
      = (Ret Stopped, c', tr) ∧
    connect sample_loads 10 [] c' = (Ret (JStr "abc123"), c', []).
Proof.
  destruct (connect_after_stream_failure_does_not_reconnect sample_loads
              connection_refused [] 10 [] sample_session)
    as (c' & tr & Hres & _ & _ & _ & Hcon); [reflexivity|].
  exists c', tr. split; [exact Hres | exact Hcon].
Defined.

Lemma connect_handshake_witness :
  ∃ c' tr,
    connect sample_loads 10 [SseEvent (flat_object sample_connected)] sample_client
      = (Ret (JStr "abc123"), c', tr) ∧
    connected c' = true ∧ client_id c' = JStr "abc123".
Proof.
  apply (connect_handshake sample_loads 10 (flat_object sample_connected)
           [("type", JStr "connected"); ("clientId", JStr "abc123")]
           (JStr "abc123") sample_client);
    [reflexivity | discriminate | reflexivity | reflexivity | reflexivity].
Defined.

Lemma connect_timeout_witness :
  ∃ c' tr,
    connect sample_loads 10 [] sample_client =
      (Raise (TimeoutError "Failed to establish SSE connection within timeout period"),
       c', tr) ∧
    connected c' = false ∧ client_id c' = JNull.
Proof.
  apply (connect_timeout sample_loads 10 sample_client); reflexivity.
Defined.

Lemma connect_with_stale_signal_witness :
  ∃ c' tr,
    connect sample_loads 10 []
      (set_connection_event true sample_client) = (Ret JNull, c', tr) ∧
    connected c' = false ∧ client_id c' = JNull ∧
    In (AWaitConnection 10 true) tr.
Proof.
  apply (connect_with_stale_signal sample_loads 10
           (set_connection_event true sample_client)); reflexivity.
Defined.

Lemma reconnect_after_disconnect_returns_none_witness :
  ∃ c1 tr1 c2 tr2,
    disconnect sample_loads [] sample_session = (Ret tt, c1, tr1) ∧
    connect sample_loads 10 [] c1 = (Ret JNull, c2, tr2) ∧
    connected c2 = false ∧ client_id c2 = JNull.
Proof.
  apply (reconnect_after_disconnect_returns_none sample_loads 10 [] sample_session).
  reflexivity.
Defined.

Lemma invoke_returns_text_item_result_witness :
  ∃ c' tr,
    invoke_tool sample_loads' "readDirectory" (JDict [("dirPath", JStr ".")]) 5
      "0001" (HttpJson (JDict [("status", JStr "ok")]))
      [] [SseEvent sample_result_text] sample_session =
      (Ret (JDict [("text", JStr "listing")]), c', tr) ∧
    tool_events c' !! KStr "msg-0001" = None ∧
    tool_results c' !! KStr "msg-0001" = None.
Proof.
  destruct (invoke_returns_text_item_result sample_loads' false "readDirectory"
              (JDict [("dirPath", JStr ".")]) 5 "0001"
              (JDict [("status", JStr "ok")]) sample_result_text
              [("type", JStr "tool_result"); ("id", JStr "msg-0001");
               ("content",
                JDict [("content",
                        JList [JDict [("type", JStr "text");
                                      ("text", JStr "listing")]])])]
              [("content",
                JList [JDict [("type", JStr "text"); ("text", JStr "listing")]])]
              [("type", JStr "text"); ("text", JStr "listing")] []
              "listing" sample_session)
    as (c' & tr & Hcall & _ & Hev & Hres & _);
    try reflexivity; try discriminate.
  exists c', tr. split; [exact Hcall|]. split; [exact Hev | exact Hres].
Defined.

Lemma invoke_returns_plain_result_witness :
  ∃ c' tr,
    invoke_tool sample_loads' "readDirectory" (JDict [("dirPath", JStr ".")]) 5
      "0001" (HttpJson (JDict [("status", JStr "ok")]))
      [SseEvent (flat_object sample_plain_result)] [] sample_session =
      (Ret (flat_value sample_plain_result), c', tr) ∧
    tool_events c' !! KStr "msg-0001" = None ∧
    tool_results c' !! KStr "msg-0001" = None.
Proof.
  apply (invoke_returns_plain_result sample_loads' true "readDirectory"
           (JDict [("dirPath", JStr ".")]) 5 "0001"
           (JDict [("status", JStr "ok")]) (flat_object sample_plain_result)
           [("type", JStr "tool_result"); ("id", JStr "msg-0001");
            ("status", JStr "done")] sample_session);
    try reflexivity; discriminate.
Defined.

Lemma invoke_returns_ack_with_error_witness :
  ∃ c' tr,
    invoke_tool sample_loads "readDirectory" (JDict [("dirPath", JStr ".")]) 5
      "0001" (HttpJson (JDict [("error", JStr "Unknown tool")])) [] []
      sample_session = (Ret (JDict [("error", JStr "Unknown tool")]), c', tr) ∧
    Forall (λ a, ¬ is_wait_result a) tr ∧
    is_Some (tool_events c' !! KStr "msg-0001").
Proof.
  apply (invoke_returns_ack_with_error sample_loads "readDirectory"
           (JDict [("dirPath", JStr ".")]) 5 "0001"
           (JDict [("error", JStr "Unknown tool")]) [] [] sample_session);
    reflexivity.
Defined.

Lemma invoke_raises_on_scalar_ack_witness :
  ∃ c' tr,
    invoke_tool sample_loads "readDirectory" (JDict [("dirPath", JStr ".")]) 5
      "0001" (HttpJson JNull) [] [] sample_session = (Raise TypeError, c', tr) ∧
    Forall (λ a, ¬ is_wait_result a) tr ∧
    is_Some (tool_events c' !! KStr "msg-0001").
Proof.
  apply (invoke_raises_on_scalar_ack sample_loads "readDirectory"
           (JDict [("dirPath", JStr ".")]) 5 "0001" JNull [] [] sample_session);
    [reflexivity | left; reflexivity].
Defined.

Lemma list_available_tools_without_session_witness :
  ∃ c' t,
    list_available_tools sample_loads "http://localhost:8080"
      [SseRaise connection_refused]
      (HttpJson (JDict [("tools", JList sample_tools)])) [] =
      (Ret (JList sample_tools), c', t) ∧
    session_cleared c' ∧
    In (ClientAction (AHttpGet "http://localhost:8080/tools")) t.
Proof.
  apply (list_available_tools_without_session sample_loads "http://localhost:8080"
           connection_refused [] [("tools", JList sample_tools)] sample_tools []).
  reflexivity.
Defined.

Lemma main_exits_zero_when_unreachable_witness :
  ∃ c' t,
    main sample_loads' "http://localhost:8080" "readDirectory" "{}"
      [SseRaise connection_refused] (HttpRaise connection_refused) "0001"
      (HttpRaise connection_refused) [] [] [] = (0, Some c', t) ∧
    In (Output (LineServer (JStr "Unknown") (JStr "Unknown"))) t ∧
    In (Output (LineResultJson not_connected_error)) t ∧
    no_client_action is_http_post t.
Proof.
  apply (main_exits_zero_when_unreachable sample_loads' "http://localhost:8080"
           "readDirectory" "{}" (JDict []) connection_refused connection_refused
           [] "0001" (HttpRaise connection_refused) [] [] []).
  reflexivity.
Defined.

Lemma main_fails_on_non_object_info_witness :
  ∃ c' t,
    main sample_loads' "http://localhost:8080" "readDirectory" "{}"
      [SseEvent (flat_object sample_connected)]
      (HttpJson (JList [JStr "mcp"])) "0001"
      (HttpJson (JDict [])) [] [] [] = (1, Some c', t) ∧
    no_client_action is_http_post t ∧ no_client_action is_new_event t.
Proof.
  apply (main_fails_on_non_object_info sample_loads' "http://localhost:8080"
           "readDirectory" "{}" (JDict [])
           [SseEvent (flat_object sample_connected)] (JList [JStr "mcp"]) "0001"
           (HttpJson (JDict [])) [] [] []);
    [reflexivity | discriminate].
Defined.

Lemma test_connection_passes_without_session_witness :
  ∃ c' t,
    test_connection sample_loads "http://localhost:8080"
      [SseRaise connection_refused] (HttpRaise connection_refused) []
      = (true, c', t) ∧
    In (Output (LineConnectedSuccessfully JNull)) t ∧ session_cleared c'.
Proof.
  apply (test_connection_passes_without_session sample_loads
           "http://localhost:8080" connection_refused []
           (HttpRaise connection_refused) []).
  intros v [=].
Defined.

(** * [invoke_tool] under every interleaving with the listener *)

Section InterleavedFacts.

Variable json_loads : string -> option json.

Lemma py_eq_str_true (v : json) (s : string) :
  py_eq_str v s = true → v = JStr s.
Proof.
  destruct v; simpl; try discriminate.
  intros H. apply String.eqb_eq in H. congruence.
Qed.

(** The listener stores a result under [k] only when it handles a
    [tool_result] event for [k]. *)
Lemma handle_event_keeps_result (k : dict_key) (text : string) (c : MCPClient) :
  ¬ result_event_for json_loads k (SseEvent text) →
  tool_results (handle_event json_loads text c).1.2 !! k = tool_results c !! k.
Proof.
  intros Hno. unfold result_event_for in Hno.
  unfold handle_event, py_json_loads.
  destruct (json_loads text) as [data|]; [|reflexivity].
  destruct data as [| | | | |fields]; try reflexivity.
  run_py.
  change (match assoc_get "type" fields with Some x => x | None => JNull end)
    with (default JNull (assoc_get "type" fields)).
  destruct (py_eq_str (default JNull (assoc_get "type" fields)) "connected") eqn:Hc.
  { unfold on_connected. run_py.
    destruct (assoc_get "clientId" fields); reflexivity. }
  simpl.
  destruct (py_eq_str (default JNull (assoc_get "type" fields)) "tool_result") eqn:Ht;
    [|reflexivity].
  assert (Hty : assoc_get "type" fields = Some (JStr "tool_result")).
  { apply py_eq_str_true in Ht.
    destruct (assoc_get "type" fields); simpl in Ht; congruence. }
  unfold on_tool_result. run_py.
  change (match assoc_get "id" fields with Some x => x | None => JNull end)
    with (default JNull (assoc_get "id" fields)).
  destruct (py_key (default JNull (assoc_get "id" fields))) as [k0|e] eqn:Hk;
    [|simpl; destruct (is_json_decode_error e); reflexivity].
  assert (Hne : k0 ≠ k) by (intros ->; apply Hno; auto).
  simpl. case_bool_decide; simpl; rewrite lookup_insert_ne by exact Hne;
    reflexivity.
Qed.

Lemma sse_loop_keeps_result (k : dict_key) (items : list sse_item) :
  Forall (λ item, ¬ result_event_for json_loads k item) items →
  ∀ c, tool_results (sse_loop json_loads items c).1.2 !! k = tool_results c !! k.
Proof.
  induction 1 as [|item items Hitem _ IH]; intros c; [reflexivity|].
  destruct item as [text|e|]; simpl; try reflexivity.
  unfold bind at 1. unfold gets at 1.
  destruct (running c); simpl; [|reflexivity].
  destruct (negb (String.eqb text EmptyString)).
  - unfold bind at 1.
    pose proof (handle_event_keeps_result k text c Hitem) as Hev.
    destruct (handle_event json_loads text c) as [[[u|e] c1] t1]; simpl in *.
    + specialize (IH c1).
      destruct (sse_loop json_loads items c1) as [[r c2] t2]; simpl in *.
      congruence.
    + exact Hev.
  - unfold bind at 1. unfold ret at 1. specialize (IH c).
    destruct (sse_loop json_loads items c) as [[r c2] t2]; simpl in *.
    exact IH.
Qed.

(** One run of the listener in a gap of the call. *)
Lemma sse_resume_gap (items : list sse_item) (c : MCPClient) :
  ∃ st c' tr,
    sse_resume json_loads items c = (Ret st, c', tr) ∧
    listener_frame c c' ∧ Forall is_print tr ∧
    (items = [] → c' = c ∧ tr = []) ∧
    ∀ k, Forall (λ item, ¬ result_event_for json_loads k item) items →
         tool_results c' !! k = tool_results c !! k.
Proof.
  destruct (sse_resume_returns json_loads items c)
    as (st & c' & tr & Hres & Hfr & Htr).
  exists st, c', tr. split; [exact Hres|]. split; [exact Hfr|].
  split; [exact Htr|]. split.
  - intros ->. revert Hres. unfold sse_resume, try_except. simpl.
    unfold ret. intros [= _ <- <-]. auto.
  - intros k Hno. pose proof (sse_loop_keeps_result k items Hno c) as Hloop.
    revert Hres. unfold sse_resume, try_except, any_exception.
    destruct (sse_loop json_loads items c) as [[[st1|e] c1] t1]; simpl in *.
    + intros [= _ <- _]. exact Hloop.
    + unfold sse_except. run_py. intros [= _ <- _]. simpl. exact Hloop.
Qed.

Lemma bind_sse_resume {B} (items : list sse_item) (f : listener_status → M B)
    (c : MCPClient) (st : listener_status) (c1 : MCPClient) (t1 : list action) :
  sse_resume json_loads items c = (Ret st, c1, t1) →
  bind (sse_resume json_loads items) f c =
    (let '(r, c', t) := f st c1 in (r, c', t1 ++ t)).
Proof.
  intros H. unfold bind. rewrite H.
  destruct (f st c1) as [[r c'] t]. reflexivity.
Qed.

(** The timeout branch from a state in which the event is registered. *)
Lemma timeout_exit_spec (k : dict_key) (timeout : Z) (g : interleaving)
    (c : MCPClient) :
  is_Some (tool_events c !! k) →
  ∃ c' tr,
    timeout_exit json_loads k timeout g c = (Ret (timeout_error timeout), c', tr) ∧
    Forall is_print tr ∧
    tool_events c' !! k = None ∧
    (∀ k', is_Some (tool_events c' !! k') → is_Some (tool_events c !! k')) ∧
    (gap_deregistered g = [] →
       c' = set_tool_events (delete k (tool_events c)) c ∧ tr = []) ∧
    (Forall (λ item, ¬ result_event_for json_loads k item) (gap_deregistered g) →
       tool_results c' !! k = tool_results c !! k).
Proof.
  intros [f Hk]. unfold timeout_exit, del_tool_event. step_py. rewrite Hk.
  step_py.
  destruct (sse_resume_gap (gap_deregistered g)
              (set_tool_events (delete k (tool_events c)) c))
    as (st & c' & tr & Hres & Hfr & Htr & Hnil & Hkeep).
  rewrite (bind_sse_resume _ _ _ _ _ _ Hres). unfold ret.
  rewrite app_nil_r.
  exists c', tr. split; [reflexivity|]. split; [exact Htr|]. split.
  { destruct (tool_events c' !! k) eqn:E; [|reflexivity].
    assert (Hs : is_Some (tool_events c' !! k)) by (rewrite E; eauto).
    apply (lf_dom _ _ Hfr) in Hs. simpl in Hs.
    rewrite lookup_delete_eq in Hs. destruct Hs as [? [=]]. }
  split.
  { intros k' Hk'. apply (lf_dom _ _ Hfr) in Hk'. simpl in Hk'.
    destruct (decide (k = k')) as [<-|Hne].
    - rewrite lookup_delete_eq in Hk'. destruct Hk' as [? [=]].
    - rewrite lookup_delete_ne in Hk' by done. exact Hk'. }
  split; [exact Hnil|].
  intros Hno. rewrite (Hkeep k Hno). reflexivity.
Qed.

Lemma frame_none (a b : MCPClient) (k : dict_key) :
  listener_frame a b → tool_events a !! k = None → tool_events b !! k = None.
Proof.
  intros Hfr Ha. destruct (tool_events b !! k) eqn:E; [|reflexivity].
  assert (Hs : is_Some (tool_events b !! k)) by (rewrite E; eauto).
  apply (lf_dom _ _ Hfr) in Hs. rewrite Ha in Hs. destruct Hs as [? [=]].
Qed.

Lemma frame_keys (a b : MCPClient) (k : dict_key) :
  listener_frame a b → is_Some (tool_events b !! k) → is_Some (tool_events a !! k).
Proof. intros Hfr. apply (lf_dom _ _ Hfr). Qed.

Lemma delete_keys (m : gmap dict_key bool) (k k' : dict_key) :
  is_Some (delete k m !! k') → is_Some (m !! k').
Proof.
  destruct (decide (k = k')) as [<-|Hne].
  - rewrite lookup_delete_eq. intros [? [=]].
  - rewrite lookup_delete_ne by done. auto.
Qed.

Ltac run_gap items c st c' t Hres Hfr Ht Hkeep :=
  destruct (sse_resume_gap items c) as (st & c' & t & Hres & Hfr & Ht & _ & Hkeep);
  rewrite (bind_sse_resume _ _ _ _ _ _ Hres).

(** The result branch from a state in which the event is registered. *)
Lemma result_exit_spec (k : dict_key) (g : interleaving) (c : MCPClient) :
  is_Some (tool_events c !! k) →
  ∃ r c' tr,
    result_exit json_loads k g c = (r, c', tr) ∧
    Forall is_print tr ∧
    tool_events c' !! k = None ∧
    (∀ k', is_Some (tool_events c' !! k') → is_Some (tool_events c !! k')) ∧
    (Forall (λ item, ¬ result_event_for json_loads k item)
       (gap_tested g ++ gap_cleaned g) →
     tool_results c' !! k = None).
Proof.
  intros Hk. unfold result_exit. step_py.
  run_gap (gap_read g) c st1 c1 t1 H1 Hfr1 Ht1 Hkeep1.
  assert (Hk1 : is_Some (tool_events c1 !! k)) by (by apply (lf_dom _ _ Hfr1)).
  destruct Hk1 as [f1 Hk1].
  unfold del_tool_event. step_py. rewrite Hk1. step_py.
  set (c2 := set_tool_events (delete k (tool_events c1)) c1).
  assert (Hnone2 : tool_events c2 !! k = None) by apply lookup_delete_eq.
  assert (Hkeys2 : ∀ k', is_Some (tool_events c2 !! k') → is_Some (tool_events c !! k')).
  { intros k' Hk'. apply (frame_keys _ _ _ Hfr1). eapply delete_keys. exact Hk'. }
  run_gap (gap_deregistered g) c2 st3 c3 t3 H3 Hfr3 Ht3 Hkeep3.
  step_py.
  run_gap (gap_tested g) c3 st4 c4 t4 H4 Hfr4 Ht4 Hkeep4.
  assert (Hfr24 : listener_frame c2 c4) by (eapply listener_frame_trans; eauto).
  destruct (decide (is_Some (tool_results c3 !! k))) as [Hin|Hin];
    [rewrite (bool_decide_eq_true_2 _ Hin) | rewrite (bool_decide_eq_false_2 _ Hin)].
  - unfold del_tool_result. step_py.
    destruct (tool_results c4 !! k) as [old|] eqn:E4.
    + step_py.
      set (c5 := set_tool_results (delete k (tool_results c4)) c4).
      run_gap (gap_cleaned g) c5 st6 c6 t6 H6 Hfr6 Ht6 Hkeep6.
      destruct (extract_content_pure json_loads
                  (default JNull (tool_results c !! k)) c6) as [r Hr].
      rewrite Hr. simpl.
      eexists _, _, _. split; [reflexivity|]. split.
      { repeat (apply Forall_app_2; [assumption|]). constructor. }
      split.
      { apply (frame_none _ _ _ Hfr6). subst c5. simpl.
        apply (frame_none _ _ _ Hfr24), Hnone2. }
      split.
      { intros k' Hk'. apply Hkeys2, (frame_keys _ _ _ Hfr24).
        apply (frame_keys _ _ _ Hfr6) in Hk'. exact Hk'. }
      intros Hno. apply Forall_app in Hno. destruct Hno as [_ Hno6].
      rewrite (Hkeep6 k Hno6). subst c5. simpl. apply lookup_delete_eq.
    + step_py. simpl.
      eexists _, _, _. split; [reflexivity|]. split.
      { repeat (apply Forall_app_2; [assumption|]). constructor. }
      split; [apply (frame_none _ _ _ Hfr24), Hnone2|].
      split.
      { intros k' Hk'. apply Hkeys2, (frame_keys _ _ _ Hfr24), Hk'. }
      intros _. exact E4.
  - step_py.
    run_gap (gap_cleaned g) c4 st6 c6 t6 H6 Hfr6 Ht6 Hkeep6.
    destruct (extract_content_pure json_loads
                (default JNull (tool_results c !! k)) c6) as [r Hr].
    rewrite Hr. simpl.
    eexists _, _, _. split; [reflexivity|]. split.
    { repeat (apply Forall_app_2; [assumption|]). constructor. }
    split; [apply (frame_none _ _ _ Hfr6), (frame_none _ _ _ Hfr24), Hnone2|].
    split.
    { intros k' Hk'. apply Hkeys2, (frame_keys _ _ _ Hfr24).
      apply (frame_keys _ _ _ Hfr6) in Hk'. exact Hk'. }
    intros Hno. apply Forall_app in Hno. destruct Hno as [Hno4 Hno6].
    rewrite (Hkeep6 k Hno6), (Hkeep4 k Hno4).
    destruct (tool_results c3 !! k) eqn:E3; [|reflexivity].
    exfalso. apply Hin. eauto.
Qed.

Lemma bind_run {A B} (m : M A) (f : A → M B) (c : MCPClient) (a : A)
    (c1 : MCPClient) (t1 : list action) :
  m c = (Ret a, c1, t1) →
  bind m f c = (let '(r, c', t) := f a c1 in (r, c', t1 ++ t)).
Proof.
  intros H. unfold bind. rewrite H.
  destruct (f a c1) as [[r c'] t]. reflexivity.
Qed.

(** What the call does with the acknowledgment, from a state in which the
    event is registered: it returns at once, or it waits and then leaves
    through the timeout branch or through the result branch. *)
Lemma await_result_spec (message_id : string) (timeout : Z) (g : interleaving)
    (res : json) (c2 : MCPClient) :
  let k := KStr message_id in
  is_Some (tool_events c2 !! k) →
  ∃ r c' tr,
    await_result json_loads message_id timeout g res c2 = (r, c', tr) ∧
    ((py_in "error" res ≠ Ret false ∧
      r = match py_in "error" res with Ret _ => Ret res | Raise e => Raise e end ∧
      c' = c2 ∧ tr = [])
     ∨
     (py_in "error" res = Ret false ∧
      ∃ st c3 t3 signalled rest,
        sse_resume json_loads (gap_wait g) c2 = (Ret st, c3, t3) ∧
        listener_frame c2 c3 ∧ Forall is_print t3 ∧
        tool_events c3 !! k = Some signalled ∧
        tr = APrint (LogWaiting message_id) :: t3 ++
               AWaitResult k timeout signalled :: rest ∧
        Forall is_print rest ∧
        tool_events c' !! k = None ∧
        (∀ k', is_Some (tool_events c' !! k') → is_Some (tool_events c2 !! k')) ∧
        (signalled = false →
           r = Ret (timeout_error timeout) ∧
           (Forall (λ item, ¬ result_event_for json_loads k item)
              (gap_woken g ++ gap_deregistered g) →
            tool_results c' !! k = tool_results c3 !! k)) ∧
        (signalled = true →
           Forall (λ item, ¬ result_event_for json_loads k item)
             (gap_tested g ++ gap_cleaned g) →
           tool_results c' !! k = None))).
Proof.
  intros k Hk2. unfold await_result. fold k.
  destruct (py_in "error" res) as [[|]|e] eqn:Herr.
  - step_py. eexists _, _, _. split; [reflexivity|]. left.
    split; [discriminate|]. auto.
  - step_py. destruct Hk2 as [f2 Hk2]. rewrite Hk2.
    destruct (sse_resume_gap (gap_wait g) c2)
      as (st & c3 & t3 & Hres & Hfr23 & Ht3 & _ & _).
    rewrite (bind_sse_resume _ _ _ _ _ _ Hres). step_py.
    assert (Hk3 : is_Some (tool_events c3 !! k))
      by (apply (lf_dom _ _ Hfr23); rewrite Hk2; eauto).
    destruct Hk3 as [signalled Hk3]. rewrite Hk3. simpl.
    destruct (sse_resume_gap (gap_woken g) c3)
      as (st4 & c4 & t4 & Hres4 & Hfr34 & Ht4 & _ & Hkeep4).
    rewrite (bind_sse_resume _ _ _ _ _ _ Hres4).
    assert (Hk4 : is_Some (tool_events c4 !! k))
      by (apply (lf_dom _ _ Hfr34); rewrite Hk3; eauto).
    assert (Hkeys4 : ∀ k', is_Some (tool_events c4 !! k') →
                           is_Some (tool_events c2 !! k')).
    { intros k' Hk'. apply (frame_keys _ _ _ Hfr23), (frame_keys _ _ _ Hfr34), Hk'. }
    destruct signalled; simpl.
    + destruct (result_exit_spec k g c4 Hk4)
        as (r & c' & tr & Hexit & Htr & Hnone & Hkeys & Hresults).
      rewrite Hexit.
      eexists _, _, _. split; [reflexivity|]. right.
      split; [reflexivity|].
      exists st, c3, t3, true, (t4 ++ tr).
      split; [exact Hres|]. split; [exact Hfr23|]. split; [exact Ht3|].
      split; [exact Hk3|]. split; [reflexivity|].
      split; [apply Forall_app_2; assumption|].
      split; [exact Hnone|]. split; [auto|].
      split; [discriminate|]. intros _. exact Hresults.
    + destruct (timeout_exit_spec k timeout g c4 Hk4)
        as (c' & tr & Hexit & Htr & Hnone & Hkeys & _ & Hresults).
      rewrite Hexit.
      eexists _, _, _. split; [reflexivity|]. right.
      split; [reflexivity|].
      exists st, c3, t3, false, (t4 ++ tr).
      split; [exact Hres|]. split; [exact Hfr23|]. split; [exact Ht3|].
      split; [exact Hk3|]. split; [reflexivity|].
      split; [apply Forall_app_2; assumption|].
      split; [exact Hnone|]. split; [auto|].
      split; [|discriminate]. intros _. split; [reflexivity|].
      intros Hno. apply Forall_app in Hno. destruct Hno as [Hno4 Hno6].
      rewrite (Hresults Hno6). apply Hkeep4, Hno4.
  - step_py. eexists _, _, _. split; [reflexivity|]. left.
    split; [discriminate|]. auto.
Qed.

(** The whole call as the run of its pieces, in order, each from the state
    the one before left. *)
Lemma invoke_tool_interleaved_run (tool_name : string) (parameters : json)
    (timeout : Z) (uuid : string) (ack : http_result) (g : interleaving)
    (c : MCPClient) :
  let message_id := "msg-" +:+ uuid in
  let k := KStr message_id in
  let c1 := set_tool_events (<[k := false]> (tool_events c)) c in
  ∃ st c1' t1 res c2 t2 r c' t3,
    sse_resume json_loads (gap_registered g) c1 = (Ret st, c1', t1) ∧
    listener_frame c1 c1' ∧ Forall is_print t1 ∧
    _send_tool_invocation json_loads message_id tool_name parameters ack
      (gap_post g) c1' = (Ret res, c2, t2) ∧
    listener_frame c1' c2 ∧
    Forall (λ a, is_print a ∨
                 a = AHttpPost (server_url c1' +:+ "/messages")
                       (invocation_payload message_id tool_name parameters
                          (client_id c1'))) t2 ∧
    await_result json_loads message_id timeout g res c2 = (r, c', t3) ∧
    invoke_tool_interleaved json_loads tool_name parameters timeout uuid ack g c
      = (r, c', ANewEvent k :: t1 ++ t2 ++ t3).
Proof.
  intros message_id k c1.
  destruct (sse_resume_gap (gap_registered g) c1)
    as (st & c1' & t1 & Hres & Hfr1 & Ht1 & _ & _).
  destruct (send_spec json_loads message_id tool_name parameters ack (gap_post g) c1')
    as (res & c2 & t2 & Hsend & Hfr2 & Ht2 & _).
  destruct (await_result json_loads message_id timeout g res c2)
    as [[r c'] t3] eqn:Hawait.
  exists st, c1', t1, res, c2, t2, r, c', t3.
  split; [exact Hres|]. split; [exact Hfr1|]. split; [exact Ht1|].
  split; [exact Hsend|]. split; [exact Hfr2|]. split; [exact Ht2|].
  split; [exact Hawait|].
  unfold invoke_tool_interleaved, new_tool_event. step_py.
  fold message_id. fold k. fold c1.
  rewrite (bind_sse_resume _ _ _ _ _ _ Hres).
  rewrite (bind_run _ _ _ _ _ _ Hsend). rewrite Hawait. reflexivity.
Qed.

Lemma bind_ext {A B} (m : M A) (f f' : A → M B) (c : MCPClient) :
  (∀ a c1, f a c1 = f' a c1) → bind m f c = bind m f' c.
Proof.
  intros H. unfold bind. destruct (m c) as [[[a|e] c1] t1]; [|reflexivity].
  rewrite H. reflexivity.
Qed.

Lemma bind_sse_resume_idle {B} (m : M B) (c : MCPClient) :
  bind (sse_resume json_loads []) (λ _, m) c = m c.
Proof.
  unfold bind, sse_resume, try_except. simpl.
  destruct (m c) as [[r c'] t]. reflexivity.
Qed.

(** [invoke_tool] is the schedule of [invoke_tool_interleaved] in which the
    listener handles events only while the call is blocked in the post or
    in the wait. *)
Lemma invoke_tool_blocked_only (tool_name : string) (parameters : json)
    (timeout : Z) (uuid : string) (ack : http_result)
    (during_post during_wait : list sse_item) (c : MCPClient) :
  invoke_tool json_loads tool_name parameters timeout uuid ack
    during_post during_wait c =
  invoke_tool_interleaved json_loads tool_name parameters timeout uuid ack
    (blocked_only during_post during_wait) c.
Proof.
  unfold invoke_tool, invoke_tool_interleaved, await_result.
  cbn [blocked_only gap_registered gap_post gap_wait gap_woken].
  apply bind_ext. intros _ c1. rewrite bind_sse_resume_idle.
  apply bind_ext. intros res c2.
  apply bind_ext. intros has_error c3. destruct has_error; [reflexivity|].
  apply bind_ext. intros _ c4.
  apply bind_ext. intros [ev|] c5; [|reflexivity].
  apply bind_ext. intros _ c6.
  apply bind_ext. intros signalled c7.
  apply bind_ext. intros _ c8. rewrite bind_sse_resume_idle.
  destruct signalled; simpl negb; cbv iota.
  - unfold result_exit.
    cbn [blocked_only gap_read gap_deregistered gap_tested gap_cleaned].
    apply bind_ext. intros tool_result c9. rewrite bind_sse_resume_idle.
    apply bind_ext. intros _ c10. rewrite bind_sse_resume_idle.
    rewrite !bind_gets. rewrite bind_sse_resume_idle.
    case_bool_decide as Hin.
    + unfold del_tool_result. rewrite bind_assoc, bind_gets.
      destruct Hin as [x Hx]. rewrite Hx.
      apply bind_ext. intros _ c11. rewrite bind_sse_resume_idle. reflexivity.
    + apply bind_ext. intros _ c11. rewrite bind_sse_resume_idle. reflexivity.
  - unfold timeout_exit. cbn [blocked_only gap_deregistered].
    apply bind_ext. intros _ c9. rewrite bind_sse_resume_idle. reflexivity.
Qed.

(** A call that reached its wait: where it leaves the two dictionaries. *)
Lemma invoke_tool_interleaved_waited (tool_name : string) (parameters : json)
    (timeout : Z) (uuid : string) (ack : http_result) (g : interleaving)
    (signalled : bool) (c : MCPClient) :
  let k := KStr ("msg-" +:+ uuid) in
  In (AWaitResult k timeout signalled)
     (snd (invoke_tool_interleaved json_loads tool_name parameters timeout uuid
             ack g c)) →
  ∃ r c' tr,
    invoke_tool_interleaved json_loads tool_name parameters timeout uuid ack g c
      = (r, c', tr) ∧
    tool_events c' !! k = None ∧
    (∀ k', is_Some (tool_events c' !! k') → is_Some (tool_events c !! k')) ∧
    (signalled = false →
       r = Ret (timeout_error timeout) ∧
       (tool_results c !! k = None →
        Forall (λ item, ¬ result_event_for json_loads k item)
          (gap_woken g ++ gap_deregistered g) →
        tool_results c' !! k = None)) ∧
    (signalled = true →
       Forall (λ item, ¬ result_event_for json_loads k item)
         (gap_tested g ++ gap_cleaned g) →
       tool_results c' !! k = None).
Proof.
  intros k Hwaited.
  destruct (invoke_tool_interleaved_run tool_name parameters timeout uuid ack g c)
    as (st & c1' & t1 & res & c2 & t2 & r & c' & t3 &
        Hres & Hfr1 & Ht1 & Hsend & Hfr2 & Ht2 & Hawait & Hcall).
  fold k in Hres, Hfr1, Hcall.
  set (c1 := set_tool_events (<[k := false]> (tool_events c)) c) in *.
  assert (Hk1 : tool_events c1 !! k = Some false)
    by (subst c1; simpl; apply lookup_insert_eq).
  assert (Hfr12 : listener_frame c1 c2)
    by (eapply listener_frame_trans; eassumption).
  assert (Hk2 : is_Some (tool_events c2 !! k))
    by (apply (lf_dom _ _ Hfr12); rewrite Hk1; eauto).
  destruct (await_result_spec ("msg-" +:+ uuid) timeout g res c2 Hk2)
    as (r' & c'' & t3' & Hawait' & Hcases).
  rewrite Hawait in Hawait'. injection Hawait' as <- <- <-.
  rewrite Hcall in Hwaited. simpl in Hwaited.
  assert (Hnot1 : ¬ In (AWaitResult k timeout signalled) t1).
  { intros Hin. rewrite List.Forall_forall in Ht1. apply (Ht1 _ Hin). }
  assert (Hnot2 : ¬ In (AWaitResult k timeout signalled) t2).
  { intros Hin. rewrite List.Forall_forall in Ht2.
    destruct (Ht2 _ Hin) as [Hp|Hp]; [exact Hp | discriminate Hp]. }
  destruct Hwaited as [Hw|Hw]; [discriminate|].
  apply in_app_or in Hw. destruct Hw as [Hw|Hw]; [tauto|].
  apply in_app_or in Hw. destruct Hw as [Hw|Hw]; [tauto|].
  destruct Hcases as [(_ & _ & _ & ->) | (_ & st3 & c3 & t3a & s & rest & Hres3 &
      Hfr23 & Ht3a & Hk3 & -> & Hrest & Hnone & Hkeys & Htimeout & Hresult)];
    [destruct Hw|].
  assert (Hs : s = signalled).
  { destruct Hw as [Hw|Hw]; [discriminate|].
    apply in_app_or in Hw. destruct Hw as [Hw|Hw].
    { rewrite List.Forall_forall in Ht3a. destruct (Ht3a _ Hw). }
    destruct Hw as [Hw|Hw]; [congruence|].
    rewrite List.Forall_forall in Hrest. destruct (Hrest _ Hw). }
  subst s. subst c1. unfold k in *. clear k.
  set (k := KStr ("msg-" +:+ uuid)) in *.
  eexists r, c', _.
  split; [exact Hcall|]. split; [exact Hnone|]. split.
  { intros k' Hk'. destruct (decide (k = k')) as [Heq|Hne].
    - rewrite <- Heq, Hnone in Hk'. destruct Hk' as [? [=]].
    - apply Hkeys in Hk'. apply (lf_dom _ _ Hfr12) in Hk'.
      simpl in Hk'. rewrite lookup_insert_ne in Hk' by done.
      exact Hk'. }
  split.
  - intros ->. destruct (Htimeout eq_refl) as [-> Hkeep].
    split; [reflexivity|]. intros Hfresh Hno.
    rewrite (Hkeep Hno).
    rewrite (lf_unsignalled _ _ Hfr23 k Hk3).
    assert (Hk2' : tool_events c2 !! k = Some false).
    { destruct Hk2 as [[] Hb]; [|exact Hb].
      apply (lf_mono _ _ Hfr23) in Hb. congruence. }
    rewrite (lf_unsignalled _ _ Hfr12 k Hk2'). exact Hfresh.
  - intros ->. exact (Hresult eq_refl).
Qed.

End InterleavedFacts.

(** ** [invoke_tool] under every interleaving with the listener *)

Section InterleavedClaims.

Variable json_loads : string -> option json.

(** C6. Every [invoke_tool] call, under every interleaving with the
    listener, runs in this order: it registers the event for its generated
    identifier, unset, as its very first action; the listener may run; the
    message is sent from a client object in which the identifier is still
    registered; the rest of the call follows from a client object in which
    it is registered as well.  No other action of the call creates an
    event, the listener steps and the rest of the call post nothing, and
    whatever the send posts goes to [/messages] and carries exactly that
    identifier.  [invoke_tool] itself is the call under the interleaving
    [blocked_only]. *)
Theorem invoke_registers_before_dispatch (tool_name : string) (parameters : json)
    (timeout : Z) (uuid : string) (ack : http_result) (g : interleaving)
    (c : MCPClient) :
  let message_id := "msg-" +:+ uuid in
  let k := KStr message_id in
  ∃ c1 st c1' t1 res c2 t2 r c' t3,
    new_tool_event k c = (Ret tt, c1, [ANewEvent k]) ∧
    tool_events c1 !! k = Some false ∧
    sse_resume json_loads (gap_registered g) c1 = (Ret st, c1', t1) ∧
    is_Some (tool_events c1' !! k) ∧
    _send_tool_invocation json_loads message_id tool_name parameters ack
      (gap_post g) c1' = (Ret res, c2, t2) ∧
    is_Some (tool_events c2 !! k) ∧
    await_result json_loads message_id timeout g res c2 = (r, c', t3) ∧
    invoke_tool_interleaved json_loads tool_name parameters timeout uuid ack g c
      = (r, c', ANewEvent k :: t1 ++ t2 ++ t3) ∧
    (∀ during_post during_wait, g = blocked_only during_post during_wait →
       invoke_tool json_loads tool_name parameters timeout uuid ack
         during_post during_wait c = (r, c', ANewEvent k :: t1 ++ t2 ++ t3)) ∧
    Forall (λ a, ¬ is_new_event a) (t1 ++ t2 ++ t3) ∧
    Forall (λ a, ¬ is_http_post a) t1 ∧
    Forall (λ a, ¬ is_http_post a) t3 ∧
    Forall (λ a, is_http_post a →
                 a = AHttpPost (server_url c +:+ "/messages")
                       (invocation_payload message_id tool_name parameters
                          (client_id c1')))
      t2.
Proof.
  intros message_id k.
  destruct (invoke_tool_interleaved_run json_loads tool_name parameters timeout
              uuid ack g c)
    as (st & c1' & t1 & res & c2 & t2 & r & c' & t3 &
        Hres & Hfr1 & Ht1 & Hsend & Hfr2 & Ht2 & Hawait & Hcall).
  fold message_id in Hres, Hfr1, Hsend, Ht2, Hawait, Hcall.
  fold k in Hres, Hfr1, Hcall.
  set (c1 := set_tool_events (<[k := false]> (tool_events c)) c) in *.
  assert (Hk1 : tool_events c1 !! k = Some false)
    by (subst c1; simpl; apply lookup_insert_eq).
  assert (Hk1' : is_Some (tool_events c1' !! k))
    by (apply (lf_dom _ _ Hfr1); rewrite Hk1; eauto).
  assert (Hk2 : is_Some (tool_events c2 !! k))
    by (apply (lf_dom _ _ Hfr2); exact Hk1').
  assert (Ht3 : Forall (λ a, is_print a ∨ is_wait_result a) t3).
  { destruct (await_result_spec json_loads message_id timeout g res c2 Hk2)
      as (r' & c'' & t3' & Hawait' & Hcases).
    rewrite Hawait in Hawait'. injection Hawait' as <- <- <-.
    destruct Hcases as [(_ & _ & _ & ->) | (_ & st3 & c3 & t3a & s & rest & _ &
        _ & Ht3a & _ & -> & Hrest & _)]; [constructor|].
    apply Forall_cons_2; [simpl; auto|].
    apply Forall_app_2; [eapply Forall_impl; [exact Ht3a|]; auto|].
    apply Forall_cons_2; [simpl; auto|].
    eapply Forall_impl; [exact Hrest|]. auto. }
  exists c1, st, c1', t1, res, c2, t2, r, c', t3.
  split; [reflexivity|]. split; [exact Hk1|]. split; [exact Hres|].
  split; [exact Hk1'|]. split; [exact Hsend|]. split; [exact Hk2|].
  split; [exact Hawait|]. split; [exact Hcall|].
  split.
  { intros during_post during_wait ->.
    rewrite (invoke_tool_blocked_only json_loads). exact Hcall. }
  split.
  { apply Forall_app_2; [|apply Forall_app_2].
    - eapply Forall_impl; [exact Ht1|]. intros []; simpl; tauto.
    - eapply Forall_impl; [exact Ht2|]. intros a [Ha| ->]; [|simpl; tauto].
      destruct a; simpl in *; tauto.
    - eapply Forall_impl; [exact Ht3|]. intros []; simpl; tauto. }
  split.
  { eapply Forall_impl; [exact Ht1|]. intros []; simpl; tauto. }
  split.
  { eapply Forall_impl; [exact Ht3|]. intros []; simpl; tauto. }
  eapply Forall_impl; [exact Ht2|]. intros a [Ha| ->].
  - destruct a; simpl in *; tauto.
  - intros _. rewrite (lf_url _ _ Hfr1). reflexivity.
Qed.


(** X15. Take a call whose wait is signalled, under any interleaving with
    the listener.  When the call is over [tool_events] has no entry for the
    generated identifier and no key it did not have before the call.
    [tool_results] has no entry for the identifier either, provided the
    listener handles no further [tool_result] event for it after the test
    of line 174. *)
Theorem invoke_signalled_leaves_no_entry (tool_name : string) (parameters : json)
    (timeout : Z) (uuid : string) (ack : http_result) (g : interleaving)
    (c : MCPClient) :
  In (AWaitResult (KStr ("msg-" +:+ uuid)) timeout true)
     (snd (invoke_tool_interleaved json_loads tool_name parameters timeout uuid
             ack g c)) →
  ∃ r c' tr,
    invoke_tool_interleaved json_loads tool_name parameters timeout uuid ack g c
      = (r, c', tr) ∧
    tool_events c' !! KStr ("msg-" +:+ uuid) = None ∧
    (∀ k', is_Some (tool_events c' !! k') → is_Some (tool_events c !! k')) ∧
    (Forall (λ item, ¬ result_event_for json_loads (KStr ("msg-" +:+ uuid)) item)
       (gap_tested g ++ gap_cleaned g) →
     tool_results c' !! KStr ("msg-" +:+ uuid) = None).
Proof.
  intros Hwaited.
  destruct (invoke_tool_interleaved_waited json_loads tool_name parameters
              timeout uuid ack g true c Hwaited)
    as (r & c' & tr & Hcall & Hnone & Hkeys & _ & Hresult).
  exists r, c', tr. auto.
Qed.

End InterleavedClaims.



(** X15 on the sample session: the result is handled during the wait, and a
    result for another call in every later gap. *)
Lemma invoke_signalled_leaves_no_entry_witness :
  ∃ r c' tr,
    invoke_tool_interleaved sample_loads' "readDirectory"
      (JDict [("dirPath", JStr ".")]) 5 "0001"
      (HttpJson (JDict [("status", JStr "ok")])) result_while_waiting
      sample_session = (r, c', tr) ∧
    tool_events c' !! KStr "msg-0001" = None ∧
    tool_results c' !! KStr "msg-0001" = None.
Proof.
  destruct (invoke_signalled_leaves_no_entry sample_loads' "readDirectory"
              (JDict [("dirPath", JStr ".")]) 5 "0001"
              (HttpJson (JDict [("status", JStr "ok")]))
              result_while_waiting sample_session)
    as (r & c' & tr & Hcall & Hev & _ & Hres).
  - vm_compute. auto 20.
  - exists r, c', tr. split; [exact Hcall|]. split; [exact Hev|].
    apply Hres. repeat constructor; vm_compute; intros [_ [=]].
Defined.

(** ** [execute_remote_tool], case by case *)

Section RemoteToolClaims.

Variable json_loads : string -> option json.

(** X22. [execute_remote_tool] never raises, and what it returns is fixed by
    what [connect] and [invoke_tool] did.
    - [connect] raises only its timeout: the function returns the error
      dict with the tool name and the timeout message, and the client is
      left as [connect] left it.
    - [connect] returns and [invoke_tool] returns a value: the function
      returns exactly that value, after [disconnect] ran on the client the
      invocation left and cleared its session.
    - [connect] returns and [invoke_tool] raises: the function returns an
      error dict whose text starts with the tool name, [disconnect] does not
      run and the client is left as the invocation left it.
    In each case the trace is the log line, the actions of the client's
    calls in order, and the error log line when there is one. *)
Theorem execute_remote_tool_contained (url tool_name : string)
    (parameters : json) (stream : list sse_item) (uuid : string)
    (ack : http_result) (during_post during_wait during_join : list sse_item) :
  ∃ v c' t,
    execute_remote_tool json_loads url tool_name parameters stream uuid ack
      during_post during_wait during_join = (Ret v, c', t) ∧
    match connect json_loads 10 stream (__init__ url) with
    | (Raise e, c1, t1) =>
        e = TimeoutError "Failed to establish SSE connection within timeout period" ∧
        v = JDict [("error",
                    JStr ("Error executing remote tool " +:+ tool_name +:+ ": " +:+
                          "Failed to establish SSE connection within timeout period"))] ∧
        c' = c1 ∧
        t = Output (LogInfoConnecting url) :: map ClientAction t1 ++
              [Output (LogErrorExecuting tool_name e)]
    | (Ret _, c1, t1) =>
        match invoke_tool json_loads tool_name parameters 30 uuid ack
                during_post during_wait c1 with
        | (Ret result, c2, t2) =>
            v = result ∧
            ∃ t3, disconnect json_loads during_join c2 = (Ret tt, c', t3) ∧
              session_cleared c' ∧
              t = Output (LogInfoConnecting url) :: map ClientAction t1 ++
                    Output (LogInfoExecuting tool_name) :: map ClientAction t2 ++
                    map ClientAction t3
        | (Raise e, c2, t2) =>
            (∃ detail,
               v = JDict [("error",
                           JStr ("Error executing remote tool " +:+ tool_name +:+
                                 ": " +:+ detail))]) ∧
            c' = c2 ∧
            t = Output (LogInfoConnecting url) :: map ClientAction t1 ++
                  Output (LogInfoExecuting tool_name) :: map ClientAction t2 ++
                  [Output (LogErrorExecuting tool_name e)]
        end
    end.
Proof.
  unfold execute_remote_tool. run_script.
  destruct (connect_not_connected json_loads 10 stream (__init__ url) eq_refl)
    as (st & c1 & tr & _ & Hconnect).
  rewrite Hconnect.
  destruct (connection_event c1); simpl.
  2:{ eexists _, _, _. split; [reflexivity|].
      split; [reflexivity|]. split; [reflexivity|]. split; [reflexivity|].
      reflexivity. }
  destruct (invoke_tool json_loads tool_name parameters 30 uuid ack
              during_post during_wait c1) as [[[v2|e2] c2] t2]; simpl.
  2:{ eexists _, _, _. split; [reflexivity|].
      split; [exists (exn_str e2); reflexivity|]. split; [reflexivity|].
      rewrite <- ?app_assoc. simpl. rewrite <- ?app_assoc. reflexivity. }
  destruct (disconnect_clears json_loads during_join c2)
    as (c' & t3 & Hdis & Hclr & _).
  rewrite Hdis. simpl.
  eexists _, _, _. split; [reflexivity|]. split; [reflexivity|].
  exists t3. split; [reflexivity|]. split; [exact Hclr|].
  rewrite app_nil_r. reflexivity.
Qed.

End RemoteToolClaims.
